(** * Multisignature wallet front end: signature ordering, submission and
      the two API routes

    A shallow embedding of
    - [TransactionsList] (the transactions component: [sendTransaction] and
      the action rendered for a proposal),
    - [app/api/update-wallet-deployed/route.ts] ([POST]),
    - [app/api/fetch-wallets/route.ts] ([GET]),
    and the properties of the signature quorum that the specification states
    about them.

    Conventions.  Addresses, signatures and hashes are JavaScript strings
    and are kept as [string].  The two database tables touched by the routes
    are finite maps from the primary key [id] to the row.  Handlers and
    [sendTransaction] run in a state-and-exception monad over a [World]
    (database plus the chronological list of observable events); a thrown
    value does not undo the database writes made before it, exactly as the
    separate [await prisma...] calls of the routes behave. *)

From Stdlib Require Import ZArith List String Ascii Bool Lia Permutation.
From stdpp Require Import gmap strings list.
Import ListNotations.

Local Open Scope Z_scope.
Local Open Scope nat_scope.

(** ** Strings *)

Module Str.

(** [String.prototype.toLowerCase] on the ASCII range, which is the range
    of hexadecimal addresses: [A]..[Z] are shifted by 32, every other
    code unit is kept. *)
Definition lower_ascii (c : ascii) : ascii :=
  let n := nat_of_ascii c in
  if (65 <=? n) && (n <=? 90) then ascii_of_nat (n + 32) else c.

Fixpoint toLowerCase (s : string) : string :=
  match s with
  | EmptyString => EmptyString
  | String c r => String (lower_ascii c) (toLowerCase r)
  end.

(** [Array.prototype.includes] on strings (strict equality). *)
Definition includes (x : string) (l : list string) : bool :=
  existsb (String.eqb x) l.

(** JavaScript truthiness of a [string | null]: [null] and the empty
    string are falsy. *)
Definition truthy (o : option string) : bool :=
  match o with
  | None => false
  | Some EmptyString => false
  | Some (String _ _) => true
  end.

End Str.

(** ** Data model *)

(** [IUserOperation], the fields [sendTransaction] reads. *)
Record IUserOperation := {
  sender : string;
  nonce : Z;
  initCode : list Byte.byte;
  callData : string;
  maxFeePerGas : Z;
  maxPriorityFeePerGas : Z
}.

(** A row of the wallet table; [wallet_id] is the field [id]. *)
Record Wallet := {
  wallet_id : Z;
  address : string;
  signers : list string;
  isDeployed : bool
}.

Record Signature := {
  signerAddress : string;
  signature : string
}.

(** [TransactionWithSignatures], as the component receives it from
    [/api/fetch-transactions]; [tx_id] is the field [id]. *)
Record TransactionWithSignatures := {
  tx_id : Z;
  userOp : IUserOperation;
  wallet : Wallet;
  signatures : list Signature;
  pendingSigners : list string;
  txHash : option string
}.

(** A row of the transaction table, as [prisma.transaction.update] sees
    it. *)
Record TransactionRow := {
  row_id : Z;
  row_walletId : Z;
  row_userOp : IUserOperation;
  row_txHash : option string
}.

Definition set_isDeployed (b : bool) (w : Wallet) : Wallet :=
  {| wallet_id := wallet_id w; address := address w;
     signers := signers w; isDeployed := b |}.

Definition set_row_txHash (h : option string) (r : TransactionRow)
  : TransactionRow :=
  {| row_id := row_id r; row_walletId := row_walletId r;
     row_userOp := row_userOp r; row_txHash := h |}.

Definition with_signatures (sigs : list Signature)
  (t : TransactionWithSignatures) : TransactionWithSignatures :=
  {| tx_id := tx_id t; userOp := userOp t; wallet := wallet t;
     signatures := sigs; pendingSigners := pendingSigners t;
     txHash := txHash t |}.

(** ** Ordering the signatures (sendTransaction, the two nested forEach) *)

(** [l.forEach(body)] where the body updates an accumulator. *)
Definition forEach {A S : Type} (l : list A) (body : A -> S -> S) (s : S) : S :=
  fold_left (fun acc a => body a acc) l s.

(** [orderedSignatures.push(x)]. *)
Definition push {A : Type} (x : A) (l : list A) : list A := l ++ [x].

Definition orderSignatures (signers0 : list string) (sigs : list Signature)
  : list string :=
  forEach signers0 (fun signer =>
    forEach sigs (fun sg orderedSignatures =>
      if String.eqb (signerAddress sg) signer
      then push (signature sg) orderedSignatures
      else orderedSignatures)) [].

Definition orderedSignaturesOf (t : TransactionWithSignatures) : list string :=
  orderSignatures (signers (wallet t)) (signatures t).

(** The signatures recorded under exactly the address [signer], in recording
    order. *)
Definition signedBy (signer : string) (sigs : list Signature) : list Signature :=
  List.filter (fun sg => String.eqb (signerAddress sg) signer) sigs.

(** The index pairs [(i, j)] with [signers[i] = signatures[j].signerAddress]. *)
Definition matchingPairs (signers0 : list string) (sigs : list Signature)
  : list (nat * nat) :=
  List.filter
    (fun ij =>
       match nth_error signers0 (fst ij), nth_error sigs (snd ij) with
       | Some s, Some sg => String.eqb (signerAddress sg) s
       | _, _ => false
       end)
    (list_prod (seq 0 (length signers0)) (seq 0 (length sigs))).

(** Modelled from the spec: the derivation of [pendingSigners], done by
    [/api/fetch-transactions], which is not part of the sources at hand.
    The specification defines the pending set as the signer set minus the
    signed addresses. *)
Definition pendingSignersOf (signers0 : list string) (sigs : list Signature)
  : list string :=
  List.filter
    (fun signer => negb (existsb (fun sg => String.eqb (signerAddress sg) signer) sigs))
    signers0.

(** A proposal as [/api/fetch-transactions] delivers it. *)
Definition fetched (t : TransactionWithSignatures) : Prop :=
  pendingSigners t = pendingSignersOf (signers (wallet t)) (signatures t).

(** ** The action rendered for a proposal (the conditional chain of the
       component) *)

Inductive Action :=
| ViewOnEtherscan
| ExecuteTxn
| SignTxn
| NoActionReqd.

Definition renderAction (address0 : string) (t : TransactionWithSignatures)
  : Action :=
  if Str.truthy (txHash t) then ViewOnEtherscan
  else if length (pendingSigners t) =? 0 then ExecuteTxn
  else if Str.includes (Str.toLowerCase address0) (pendingSigners t) then SignTxn
  else NoActionReqd.

(** ** Effects: thrown values, the database, observable events *)

(** The external collaborators whose promises may reject. *)
Inductive Collaborator :=
| Bundler
| Prisma
| Framework
| Browser.

(** What a collaborator rejects with: whether the value is an [Error]
    instance, and its message. *)
Record Fault := {
  fault_isError : bool;
  fault_message : string
}.

(** A thrown value: [Error m] is [new Error(m)] created by the code
    embedded here, [Rejection c f] comes out of a collaborator. *)
Inductive Exn :=
| Error (m : string)
| Rejection (c : Collaborator) (f : Fault).

Definition instanceofError (e : Exn) : bool :=
  match e with
  | Error _ => true
  | Rejection _ f => fault_isError f
  end.

Definition message (e : Exn) : string :=
  match e with
  | Error m => m
  | Rejection _ f => fault_message f
  end.

Inductive Result (A : Type) :=
| Ok (a : A)
| Throw (e : Exn).
Arguments Ok {A} a.
Arguments Throw {A} e.

Record Db := {
  wallets : gmap Z Wallet;
  transactions : gmap Z TransactionRow
}.

(** The package handed to the execution submitter: the arguments of
    [getUserOperationBuilder] and the two fees set on the builder. *)
Record UserOperationRequest := {
  req_sender : string;
  req_nonce : Z;
  req_initCode : list Byte.byte;
  req_callData : string;
  req_signatures : list string;
  req_maxFeePerGas : Z;
  req_maxPriorityFeePerGas : Z
}.

(** The [txHash] member of a request body, as [req.json()] may deliver
    it: absent ([undefined]), JSON [null], a string, or a value of another
    type, which the ORM refuses for a string column. *)
Inductive TxHashField :=
| TxUndefined
| TxNull
| TxString (s : string)
| TxInvalid.

(** [JSON.stringify] of the component's [txHash]: an [undefined] member is
    dropped. *)
Definition hashField (h : option string) : TxHashField :=
  match h with
  | Some s => TxString s
  | None => TxUndefined
  end.

(** The JSON body of a request to [/api/update-wallet-deployed].  An id
    that is absent or is not a number is [None]; the ORM refuses both. *)
Record UpdateBody := {
  walletId : option Z;
  transactionId : option Z;
  body_txHash : TxHashField
}.

(** What [NextResponse.json] is given. *)
Inductive Json :=
| JsonWallet (w : Wallet)
| JsonNull
| JsonTransaction (r : TransactionRow)
| JsonError (error : Exn).

Definition is_error_response (j : Json) : bool :=
  match j with
  | JsonError _ => true
  | _ => false
  end.

Inductive Event :=
| ClientInit
| SendUserOperation (r : UserOperationRequest)
| Fetch (b : UpdateBody) (response : Json)
| FetchRejected (b : UpdateBody) (f : Fault)
| ServerConsoleError (e : Exn)
| ConsoleError (e : Exn)
| Alert (m : string)
| Reload.

Record World := {
  db : Db;
  log : list Event
}.

Definition initial (d : Db) : World := {| db := d; log := [] |}.

(** State and exceptions; the state reached when a value is thrown is
    kept. *)
Definition M (A : Type) : Type := World -> World * Result A.

Definition ret {A : Type} (a : A) : M A := fun w => (w, Ok a).

Definition bind {A B : Type} (m : M A) (k : A -> M B) : M B :=
  fun w =>
    match m w with
    | (w', Ok a) => k a w'
    | (w', Throw e) => (w', Throw e)
    end.

Definition throw {A : Type} (e : Exn) : M A := fun w => (w, Throw e).

Definition try_catch {A : Type} (body : M A) (handler : Exn -> M A) : M A :=
  fun w =>
    match body w with
    | (w', Ok a) => (w', Ok a)
    | (w', Throw e) => handler e w'
    end.

Definition emit (ev : Event) : M unit :=
  fun w => ({| db := db w; log := log w ++ [ev] |}, Ok tt).

Definition get_db : M Db := fun w => (w, Ok (db w)).

Definition put_db (d : Db) : M unit :=
  fun w => ({| db := d; log := log w |}, Ok tt).

Notation "'let*' x ':=' m 'in' k" := (bind m (fun x => k))
  (at level 10, x name, m at level 200, k at level 200).

(** ** The ORM calls used by the routes *)

(** What the ORM rejects with.  Only the kind of failure matters below; the
    message texts stand for the ORM's own and no statement depends on
    them. *)
Definition record_not_found : Exn :=
  Rejection Prisma {| fault_isError := true;
                      fault_message := "Record to update not found" |}.

Definition invalid_where : Exn :=
  Rejection Prisma {| fault_isError := true;
                      fault_message := "Argument where needs an id" |}.

(** [prisma.wallet.update({ where: { id }, data: { isDeployed: true } })]:
    rejects when [id] is missing or names no row. *)
Definition prisma_wallet_update_isDeployed (i : option Z) : M Wallet :=
  match i with
  | None => throw invalid_where
  | Some k =>
      let* d := get_db in
      match wallets d !! k with
      | None => throw record_not_found
      | Some w =>
          let w' := set_isDeployed true w in
          let* _ := put_db {| wallets := <[k := w']> (wallets d);
                              transactions := transactions d |} in
          ret w'
      end
  end.

Definition invalid_data : Exn :=
  Rejection Prisma {| fault_isError := true;
                      fault_message := "Argument txHash: invalid value" |}.

(** [prisma.transaction.update({ where: { id }, data: { txHash } })]: the
    arguments are validated before the table is read; an [undefined]
    [txHash] leaves the column as it is, [null] empties it, a string is
    written. *)
Definition prisma_transaction_update_txHash (i : option Z) (h : TxHashField)
  : M TransactionRow :=
  match i with
  | None => throw invalid_where
  | Some k =>
      match h with
      | TxInvalid => throw invalid_data
      | _ =>
          let* d := get_db in
          match transactions d !! k with
          | None => throw record_not_found
          | Some r =>
              let r' := match h with
                        | TxString x => set_row_txHash (Some x) r
                        | TxNull => set_row_txHash None r
                        | _ => r
                        end in
              let* _ := put_db {| wallets := wallets d;
                                  transactions := <[k := r']> (transactions d) |} in
              ret r'
          end
      end
  end.

(** [prisma.wallet.findFirst({ where: { address } })]: some row with
    exactly that address, [null] when there is none. *)
Definition prisma_wallet_findFirst (a : string) : M (option Wallet) :=
  let* d := get_db in
  ret (option_map snd
         (List.find (fun kw => String.eqb (address (snd kw)) a)
                    (map_to_list (wallets d)))).

(** ** POST /api/update-wallet-deployed *)

(** [req.json()]: [None] is a body that is not JSON. *)
Definition req_json (body : option UpdateBody) : M UpdateBody :=
  match body with
  | Some b => ret b
  | None => throw (Rejection Framework
                    {| fault_isError := true;
                       fault_message := "Unexpected end of JSON input" |})
  end.

Definition POST (body : option UpdateBody) : M Json :=
  try_catch
    (let* b := req_json body in
     let* _ := prisma_wallet_update_isDeployed (walletId b) in
     let* res := prisma_transaction_update_txHash (transactionId b) (body_txHash b) in
     ret (JsonTransaction res))
    (fun error =>
       let* _ := emit (ServerConsoleError error) in
       ret (JsonError error)).

(** ** GET /api/fetch-wallets *)

(** [new URL(req.url).searchParams], as the list of its key/value pairs. *)
Record NextRequest := {
  searchParams : list (string * string)
}.

(** [searchParams.get(name)]: the first value given for [name], or
    [null]. *)
Definition searchParams_get (name : string) (req : NextRequest) : option string :=
  option_map snd (List.find (fun kv => String.eqb (fst kv) name) (searchParams req)).

(** [!walletAddress]: [null] and the empty string. *)
Definition falsy (o : option string) : bool := negb (Str.truthy o).

(** A [string | null] that passed the guard is a string. *)
Definition narrowed (o : option string) : string :=
  match o with
  | Some a => a
  | None => EmptyString
  end.

(** [NextResponse.json(wallet)] for the result of [findFirst]. *)
Definition json_wallet (o : option Wallet) : Json :=
  match o with
  | Some w => JsonWallet w
  | None => JsonNull
  end.

Section FetchWallets.

(** [isAddress] of ethers. *)
Variable isAddress : string -> bool.

Definition GET (req : NextRequest) : M Json :=
  try_catch
    (let walletAddress := searchParams_get "walletAddress" req in
     if falsy walletAddress then throw (Error "Missing or invalid address")
     else
       let a := narrowed walletAddress in
       if negb (isAddress a) then throw (Error "Invalid Ethereum address")
       else
         let* wallet0 := prisma_wallet_findFirst a in
         ret (json_wallet wallet0))
    (fun error =>
       let* _ := emit (ServerConsoleError error) in
       ret (JsonError error)).

End FetchWallets.

(** ** sendTransaction *)

(** How a [fetch] of the persistence route goes: the request is handled
    and the answer arrives; or the promise rejects, either before the route
    saw the request or after the route handled it, the answer being lost. *)
Inductive Delivery :=
| Delivered
| RequestLost (f : Fault)
| ResponseLost (f : Fault).

(** The bundler and the network as [sendTransaction] meets them.  [clientInit] is
    [Client.init(BUNDLER_RPC_URL)]; [executionSubmitter] stands for
    building the operation from the package, [client.sendUserOperation],
    [result.wait()] and reading [transactionHash] off the receipt, which is
    [undefined] ([None]) when there is no receipt; [delivery] says how the
    [fetch] of the persistence route goes. *)
Record Env := {
  clientInit : option Fault;
  executionSubmitter : UserOperationRequest -> Fault + option string;
  delivery : UpdateBody -> Delivery
}.

Definition Client_init (env : Env) : M unit :=
  let* _ := emit ClientInit in
  match clientInit env with
  | None => ret tt
  | Some f => throw (Rejection Bundler f)
  end.

Definition sendUserOperation (env : Env) (r : UserOperationRequest)
  : M (option string) :=
  let* _ := emit (SendUserOperation r) in
  match executionSubmitter env r with
  | inr h => ret h
  | inl f => throw (Rejection Bundler f)
  end.

(** [await fetch("/api/update-wallet-deployed", { method: "POST", body })]:
    the route runs on the request and its answer comes back, unless the
    promise rejects. *)
Definition fetch_update_wallet_deployed (env : Env) (b : UpdateBody) : M Json :=
  match delivery env b with
  | Delivered =>
      let* response := POST (Some b) in
      let* _ := emit (Fetch b response) in
      ret response
  | RequestLost f =>
      let* _ := emit (FetchRejected b f) in
      throw (Rejection Browser f)
  | ResponseLost f =>
      let* _ := POST (Some b) in
      let* _ := emit (FetchRejected b f) in
      throw (Rejection Browser f)
  end.

Definition incomplete_quorum : Exn :=
  Error "Fewer signatures received than expected".

(** The [loading] flag of the component is display state only and is left
    out; everything else follows the function statement by statement. *)
Definition sendTransaction (env : Env) (transaction : TransactionWithSignatures)
  : M unit :=
  try_catch
    (let userOp0 := userOp transaction in
     let* _ := Client_init env in
     let orderedSignatures :=
       orderSignatures (signers (wallet transaction)) (signatures transaction) in
     if negb (length orderedSignatures =? length (signers (wallet transaction)))
     then throw incomplete_quorum
     else
       let initCode0 :=
         if isDeployed (wallet transaction) then [] else initCode userOp0 in
       let* txHash0 :=
         sendUserOperation env
           {| req_sender := sender userOp0;
              req_nonce := nonce userOp0;
              req_initCode := initCode0;
              req_callData := callData userOp0;
              req_signatures := orderedSignatures;
              req_maxFeePerGas := maxFeePerGas userOp0;
              req_maxPriorityFeePerGas := maxPriorityFeePerGas userOp0 |} in
       let* _ :=
         fetch_update_wallet_deployed env
           {| walletId := Some (wallet_id (wallet transaction));
              transactionId := Some (tx_id transaction);
              body_txHash := hashField txHash0 |} in
       let* _ := emit (Alert "Transaction sent successfully") in
       emit Reload)
    (fun e =>
       let* _ := emit (ConsoleError e) in
       if instanceofError e then emit (Alert (message e)) else ret tt).

(** The world after [sendTransaction] started from database [d]. *)
Definition run_sendTransaction (env : Env) (t : TransactionWithSignatures)
  (d : Db) : World :=
  fst (sendTransaction env t (initial d)).

(** The packages handed to the execution submitter, and the persistence
    requests with their answers. *)
Definition submitted (w : World) : list UserOperationRequest :=
  flat_map (fun ev => match ev with SendUserOperation r => [r] | _ => [] end)
           (log w).

Definition persisted (w : World) : list (UpdateBody * Json) :=
  flat_map (fun ev => match ev with Fetch b j => [(b, j)] | _ => [] end)
           (log w).

(** Everything the component passed to [console.error]. *)
Definition failures (w : World) : list Exn :=
  flat_map (fun ev => match ev with ConsoleError e => [e] | _ => [] end)
           (log w).

(** ** Auxiliary notions for the properties *)

Definition logged (ev : Event) (w : World) : World :=
  {| db := db w; log := log w ++ [ev] |}.

Definition with_wallets (ws : gmap Z Wallet) (w : World) : World :=
  {| db := {| wallets := ws; transactions := transactions (db w) |};
     log := log w |}.

(** The row written by the transaction update. *)
Definition updated_row (h : TxHashField) (r : TransactionRow) : TransactionRow :=
  match h with
  | TxString x => set_row_txHash (Some x) r
  | TxNull => set_row_txHash None r
  | _ => r
  end.

(** The transaction update is refused: no usable id, a [txHash] of the
    wrong type, or no row with that id. *)
Definition update_refused (b : UpdateBody) (w : World) : Prop :=
  match transactionId b with
  | None => True
  | Some i => body_txHash b = TxInvalid \/ transactions (db w) !! i = None
  end.

(** The persistence requests the component issued, answered or not. *)
Definition requested (w : World) : list UpdateBody :=
  flat_map (fun ev => match ev with
                      | Fetch b _ => [b]
                      | FetchRejected b _ => [b]
                      | _ => []
                      end)
           (log w).

(** The route always answers; which case applies is decided by the body
    and the two lookups: rejected before any write, rejected after the
    wallet was written, or accepted. *)
Inductive POST_case (body : option UpdateBody) (w : World)
  : World -> Json -> Prop :=
| POST_rejected_early c f :
    match body with
    | None => True
    | Some b => match walletId b with
                | None => True
                | Some k => wallets (db w) !! k = None
                end
    end ->
    POST_case body w (logged (ServerConsoleError (Rejection c f)) w)
      (JsonError (Rejection c f))
| POST_rejected_late c f b k wl :
    body = Some b -> walletId b = Some k -> wallets (db w) !! k = Some wl ->
    update_refused b w ->
    POST_case body w
      (logged (ServerConsoleError (Rejection c f))
         (with_wallets (<[k := set_isDeployed true wl]> (wallets (db w))) w))
      (JsonError (Rejection c f))
| POST_accepted b k wl i r :
    body = Some b -> walletId b = Some k -> wallets (db w) !! k = Some wl ->
    transactionId b = Some i -> transactions (db w) !! i = Some r ->
    body_txHash b <> TxInvalid ->
    POST_case body w
      {| db := {| wallets := <[k := set_isDeployed true wl]> (wallets (db w));
                  transactions :=
                    <[i := updated_row (body_txHash b) r]> (transactions (db w)) |};
         log := log w |}
      (JsonTransaction (updated_row (body_txHash b) r)).

(** The package [sendTransaction] builds for a proposal, and the body of
    its persistence request. *)
Definition requestOf (t : TransactionWithSignatures) : UserOperationRequest :=
  {| req_sender := sender (userOp t);
     req_nonce := nonce (userOp t);
     req_initCode := if isDeployed (wallet t) then [] else initCode (userOp t);
     req_callData := callData (userOp t);
     req_signatures := orderedSignaturesOf t;
     req_maxFeePerGas := maxFeePerGas (userOp t);
     req_maxPriorityFeePerGas := maxPriorityFeePerGas (userOp t) |}.

Definition persistBody (t : TransactionWithSignatures) (h : option string)
  : UpdateBody :=
  {| walletId := Some (wallet_id (wallet t));
     transactionId := Some (tx_id t);
     body_txHash := hashField h |}.

(** What the [catch] block of [sendTransaction] leaves in the log. *)
Definition caught (e : Exn) : list Event :=
  ConsoleError e :: (if instanceofError e then [Alert (message e)] else []).

(** The quorum-length check passes. *)
Definition quorum_met (t : TransactionWithSignatures) : bool :=
  length (orderedSignaturesOf t) =? length (signers (wallet t)).

(** [sendTransaction] ran to its last statement. *)
Definition sent (w : World) : Prop := In Reload (log w).

(** The ways a call of [sendTransaction] on proposal [t] can go,
    with the world each leaves behind. *)
Inductive SendOutcome (env : Env) (t : TransactionWithSignatures) (d : Db)
  : World -> Prop :=
| Init_failed f :
    clientInit env = Some f ->
    SendOutcome env t d
      {| db := d; log := ClientInit :: caught (Rejection Bundler f) |}
| Quorum_failed :
    clientInit env = None -> quorum_met t = false ->
    SendOutcome env t d
      {| db := d; log := ClientInit :: caught incomplete_quorum |}
| Submitter_failed f :
    clientInit env = None -> quorum_met t = true ->
    executionSubmitter env (requestOf t) = inl f ->
    SendOutcome env t d
      {| db := d;
         log := [ClientInit; SendUserOperation (requestOf t)]
                  ++ caught (Rejection Bundler f) |}
| Request_lost h f :
    clientInit env = None -> quorum_met t = true ->
    executionSubmitter env (requestOf t) = inr h ->
    delivery env (persistBody t h) = RequestLost f ->
    SendOutcome env t d
      {| db := d;
         log := [ClientInit; SendUserOperation (requestOf t);
                 FetchRejected (persistBody t h) f]
                  ++ caught (Rejection Browser f) |}
| Response_lost h f w' j :
    clientInit env = None -> quorum_met t = true ->
    executionSubmitter env (requestOf t) = inr h ->
    delivery env (persistBody t h) = ResponseLost f ->
    POST_case (Some (persistBody t h))
      {| db := d; log := [ClientInit; SendUserOperation (requestOf t)] |} w' j ->
    SendOutcome env t d
      {| db := db w';
         log := log w' ++ [FetchRejected (persistBody t h) f]
                  ++ caught (Rejection Browser f) |}
| Sent h w' j :
    clientInit env = None -> quorum_met t = true ->
    executionSubmitter env (requestOf t) = inr h ->
    delivery env (persistBody t h) = Delivered ->
    POST_case (Some (persistBody t h))
      {| db := d; log := [ClientInit; SendUserOperation (requestOf t)] |} w' j ->
    SendOutcome env t d
      {| db := db w';
         log := log w' ++ [Fetch (persistBody t h) j;
                           Alert "Transaction sent successfully";
                           Reload] |}.

(** The data-model invariant on signatures: at most one per signer
    address. *)
Definition one_signature_per_signer (t : TransactionWithSignatures) : Prop :=
  List.NoDup (map signerAddress (signatures t)).

(** The data-model invariant on wallets: no signer address twice. *)
Definition unique_signers (t : TransactionWithSignatures) : Prop :=
  List.NoDup (signers (wallet t)).

(** A proposal is executable: nobody is pending and the component offers
    the execute action to the connected [address0]. *)
Definition executable (address0 : string) (t : TransactionWithSignatures) : Prop :=
  pendingSigners t = [] /\ renderAction address0 t = ExecuteTxn.

(** The signatures of [signer] that the verifier accepts. *)
Definition validSignaturesBy (verify : Signature -> bool) (signer : string)
  (sigs : list Signature) : list Signature :=
  List.filter (fun sg => String.eqb (signerAddress sg) signer && verify sg) sigs.

(** Every signer of the wallet has recorded exactly one valid signature. *)
Definition signed_exactly_once (verify : Signature -> bool)
  (t : TransactionWithSignatures) : Prop :=
  forall s, In s (signers (wallet t)) ->
            length (validSignaturesBy verify s (signatures t)) = 1.

Definition with_txHash (h : option string) (t : TransactionWithSignatures)
  : TransactionWithSignatures :=
  {| tx_id := tx_id t; userOp := userOp t; wallet := wallet t;
     signatures := signatures t; pendingSigners := pendingSigners t;
     txHash := h |}.

(** Every signer of the wallet has a recorded signature under its
    address. *)
Definition every_signer_signed (t : TransactionWithSignatures) : Prop :=
  forall s, In s (signers (wallet t)) ->
            exists sg, In sg (signatures t) /\ signerAddress sg = s.

(** ** Sample data: a wallet with signers A and B *)

Module Sample.

Definition A : string := "0xaaaa".
Definition B : string := "0xbbbb".

Definition op : IUserOperation :=
  {| sender := "0x5afe"; nonce := 0%Z; initCode := [Byte.x60; Byte.x80];
     callData := "0xb61d27f6"; maxFeePerGas := 30%Z;
     maxPriorityFeePerGas := 2%Z |}.

Definition wallet_AB : Wallet :=
  {| wallet_id := 1%Z; address := "0x5afe"; signers := [A; B];
     isDeployed := false |}.

Definition sigA : Signature := {| signerAddress := A; signature := "0x51a0" |}.
Definition sigA' : Signature := {| signerAddress := A; signature := "0x51a1" |}.
Definition sigB : Signature := {| signerAddress := B; signature := "0x51b0" |}.

Definition proposal (w : Wallet) (sigs : list Signature) (h : option string)
  : TransactionWithSignatures :=
  {| tx_id := 7%Z; userOp := op; wallet := w; signatures := sigs;
     pendingSigners := pendingSignersOf (signers w) sigs; txHash := h |}.

(** B signed first, then A. *)
Definition t_BA : TransactionWithSignatures := proposal wallet_AB [sigB; sigA] None.
(** Only B signed. *)
Definition t_B : TransactionWithSignatures := proposal wallet_AB [sigB] None.
(** A signed twice, B not at all. *)
Definition t_AA : TransactionWithSignatures := proposal wallet_AB [sigA; sigA'] None.
(** Fully signed and already submitted. *)
Definition t_done : TransactionWithSignatures :=
  proposal wallet_AB [sigB; sigA] (Some "0x7a01").

(** The signer A is listed twice. *)
Definition wallet_AAB : Wallet :=
  {| wallet_id := 2%Z; address := "0x5aff"; signers := [A; A; B];
     isDeployed := false |}.
Definition t_AAB : TransactionWithSignatures :=
  proposal wallet_AAB [sigA; sigB] None.

(** A wallet with the single signer A, who signed twice. *)
Definition wallet_A : Wallet :=
  {| wallet_id := 3%Z; address := "0x5b00"; signers := [A]; isDeployed := false |}.
Definition t_A_twice : TransactionWithSignatures :=
  proposal wallet_A [sigA; sigA'] None.

(** A signer stored in mixed case, and signatures recorded under the
    lower-case and under the stored spelling. *)
Definition wallet_mixed : Wallet :=
  {| wallet_id := 4%Z; address := "0x5b01"; signers := ["0xAB12"];
     isDeployed := false |}.
Definition sig_lower : Signature :=
  {| signerAddress := "0xab12"; signature := "0x51c0" |}.
Definition sig_stored : Signature :=
  {| signerAddress := "0xAB12"; signature := "0x51c1" |}.
Definition t_both_spellings : TransactionWithSignatures :=
  proposal wallet_mixed [sig_lower; sig_stored] None.
Definition t_lower_only : TransactionWithSignatures :=
  proposal wallet_mixed [sig_lower] None.
(** Both spellings are listed as signers. *)
Definition wallet_listed_twice : Wallet :=
  {| wallet_id := 5%Z; address := "0x5b02"; signers := ["0xAB12"; "0xab12"];
     isDeployed := false |}.
Definition t_listed_twice : TransactionWithSignatures :=
  proposal wallet_listed_twice [sig_lower; sig_stored] None.

Definition row (h : option string) : TransactionRow :=
  {| row_id := 7%Z; row_walletId := 1%Z; row_userOp := op; row_txHash := h |}.

Definition d_AB : Db :=
  {| wallets := {[ 1%Z := wallet_AB ]}; transactions := {[ 7%Z := row None ]} |}.

Definition d_done : Db :=
  {| wallets := {[ 1%Z := set_isDeployed true wallet_AB ]};
     transactions := {[ 7%Z := row (Some "0x7a01") ]} |}.

(** The wallet is stored, the proposal is not. *)
Definition d_wallet_only : Db :=
  {| wallets := {[ 1%Z := wallet_AB ]}; transactions := ∅ |}.

Definition env_ok (h : string) : Env :=
  {| clientInit := None; executionSubmitter := fun _ => inr (Some h);
     delivery := fun _ => Delivered |}.

(** The submitter returns a hash, the route handles the request, and the
    answer never arrives. *)
Definition env_response_lost (h : string) : Env :=
  {| clientInit := None; executionSubmitter := fun _ => inr (Some h);
     delivery := fun _ =>
       ResponseLost {| fault_isError := true;
                       fault_message := "Failed to fetch" |} |}.


(** The client rejects with a value that is no [Error]. *)
Definition env_down_silently : Env :=
  {| clientInit := Some {| fault_isError := false; fault_message := "timeout" |};
     executionSubmitter := fun _ => inr None;
     delivery := fun _ => Delivered |}.

Definition env_down : Env :=
  {| clientInit := Some {| fault_isError := true;
                           fault_message := "could not detect network" |};
     executionSubmitter := fun _ => inr None;
     delivery := fun _ => Delivered |}.

Definition env_rejecting : Env :=
  {| clientInit := None;
     executionSubmitter := fun _ =>
       inl {| fault_isError := true; fault_message := "AA23 reverted" |};
     delivery := fun _ => Delivered |}.

End Sample.

(** ** The rest of the component: fetchTransactions and signTransaction *)

(** The [error] field of a JSON answer, in the shapes a route of this
    project gives it: absent (or [null]), a string, or an object (a caught
    value passed to [NextResponse.json]). *)
Inductive JsonField :=
| JAbsent
| JString (s : string)
| JObject.

(** Truthiness of such a field. *)
Definition js_truthy (v : JsonField) : bool :=
  match v with
  | JAbsent => false
  | JString s => Str.truthy (Some s)
  | JObject => true
  end.

(** The message of [new Error(v)], that is [String(v)]. *)
Definition js_toString (v : JsonField) : string :=
  match v with
  | JAbsent => "undefined"
  | JString s => s
  | JObject => "[object Object]"
  end.

(** The answer of [/api/fetch-transactions], as far as the component reads
    it. *)
Record TransactionsData := {
  data_error : JsonField;
  data_transactions : list TransactionWithSignatures
}.

(** The JSON body posted to [/api/create-signature]. *)
Record CreateSignatureBody := {
  cs_signerAddress : string;
  cs_signature : string;
  cs_transactionId : Z
}.

(** Where a rejected promise of the component comes from. *)
Inductive Origin :=
| HashUtility
| WalletExtension
| Network.

(** A value caught by the component: [NewError m] is [new Error(m)] thrown
    by the component itself. *)
Inductive Caught :=
| NewError (m : string)
| Rejected (o : Origin) (f : Fault).

Definition caught_isError (e : Caught) : bool :=
  match e with
  | NewError _ => true
  | Rejected _ f => fault_isError f
  end.

Definition caught_message (e : Caught) : string :=
  match e with
  | NewError m => m
  | Rejected _ f => fault_message f
  end.

(** What the component is given from outside: the wallet client of the
    connected account ([None] while there is none) with its [signMessage]
    on a raw hash, [getUserOpHash], and the two routes it talks to ([inl]
    when [fetch] or [response.json()] rejects). *)
Record ComponentEnv := {
  walletClient : option (string -> Fault + string);
  getUserOpHash : IUserOperation -> Fault + string;
  fetch_transactions : string -> Fault + TransactionsData;
  create_signature : CreateSignatureBody -> Fault + JsonField
}.

Inductive UiEvent :=
| UiGetTransactions (url : string)
| UiGetUserOpHash (u : IUserOperation)
| UiSignMessage (raw : string)
| UiPostCreateSignature (b : CreateSignatureBody)
| UiConsoleError (e : Caught)
| UiAlert (m : string)
| UiReload.

(** The two state variables of the component and what it did so far. *)
Record Ui := {
  walletTxns : list TransactionWithSignatures;
  loading : bool;
  trace : list UiEvent
}.

Inductive Outcome (A : Type) :=
| Returned (a : A)
| Raised (e : Caught).
Arguments Returned {A} a.
Arguments Raised {A} e.

Definition UiM (A : Type) : Type := Ui -> Ui * Outcome A.

Definition ui_ret {A : Type} (a : A) : UiM A := fun u => (u, Returned a).

Definition ui_bind {A B : Type} (m : UiM A) (k : A -> UiM B) : UiM B :=
  fun u =>
    match m u with
    | (u', Returned a) => k a u'
    | (u', Raised e) => (u', Raised e)
    end.

Definition ui_throw {A : Type} (e : Caught) : UiM A := fun u => (u, Raised e).

Definition ui_try {A : Type} (body : UiM A) (handler : Caught -> UiM A) : UiM A :=
  fun u =>
    match body u with
    | (u', Returned a) => (u', Returned a)
    | (u', Raised e) => handler e u'
    end.

Definition ui_emit (ev : UiEvent) : UiM unit :=
  fun u => ({| walletTxns := walletTxns u; loading := loading u;
               trace := trace u ++ [ev] |}, Returned tt).

Definition setLoading (b : bool) : UiM unit :=
  fun u => ({| walletTxns := walletTxns u; loading := b; trace := trace u |},
            Returned tt).

Definition setWalletTxns (l : list TransactionWithSignatures) : UiM unit :=
  fun u => ({| walletTxns := l; loading := loading u; trace := trace u |},
            Returned tt).

Notation "'let+' x ':=' m 'in' k" := (ui_bind m (fun x => k))
  (at level 10, x name, m at level 200, k at level 200).

(** An awaited call of a collaborator: the call is recorded, a rejection is
    thrown. *)
Definition await {A : Type} (ev : UiEvent) (o : Origin) (r : Fault + A) : UiM A :=
  let+ _ := ui_emit ev in
  match r with
  | inr a => ui_ret a
  | inl f => ui_throw (Rejected o f)
  end.

Definition fetchTransactions (env : ComponentEnv) (walletAddress0 : string)
  : UiM unit :=
  ui_try
    (let url := String.append "/api/fetch-transactions?walletAddress="
                              walletAddress0 in
     let+ data := await (UiGetTransactions url) Network
                        (fetch_transactions env walletAddress0) in
     if js_truthy (data_error data)
     then ui_throw (NewError (js_toString (data_error data)))
     else setWalletTxns (data_transactions data))
    (fun error =>
       let+ _ := (if caught_isError error
                  then ui_emit (UiAlert (caught_message error))
                  else ui_ret tt) in
       ui_emit (UiConsoleError error)).

Definition signTransaction (env : ComponentEnv) (address0 : string)
  (transaction : TransactionWithSignatures) : UiM unit :=
  match walletClient env with
  | None => ui_ret tt
  | Some signMessage =>
      ui_try
        (let+ _ := setLoading true in
         let+ userOpHash :=
           await (UiGetUserOpHash (userOp transaction)) HashUtility
                 (getUserOpHash env (userOp transaction)) in
         let+ signature0 :=
           await (UiSignMessage userOpHash) WalletExtension
                 (signMessage userOpHash) in
         let body := {| cs_signerAddress := address0;
                        cs_signature := signature0;
                        cs_transactionId := tx_id transaction |} in
         let+ error := await (UiPostCreateSignature body) Network
                             (create_signature env body) in
         if js_truthy error then ui_throw (NewError (js_toString error))
         else
           let+ _ := ui_emit (UiAlert "Transaction signed successfully") in
           ui_emit UiReload)
        (fun e =>
           let+ _ := ui_emit (UiConsoleError e) in
           let+ _ := (if caught_isError e
                      then ui_emit (UiAlert (caught_message e))
                      else ui_ret tt) in
           setLoading false)
  end.

(** The component as it is before anything was done. *)
Definition ui_initial (l : list TransactionWithSignatures) (b : bool) : Ui :=
  {| walletTxns := l; loading := b; trace := [] |}.

(** The signature requests a run posted, what it logged and what it
    alerted. *)
Definition ui_posted (u : Ui) : list CreateSignatureBody :=
  flat_map (fun ev => match ev with UiPostCreateSignature b => [b] | _ => [] end)
           (trace u).

Definition ui_errors (u : Ui) : list Caught :=
  flat_map (fun ev => match ev with UiConsoleError e => [e] | _ => [] end)
           (trace u).

Definition ui_alerts (u : Ui) : list string :=
  flat_map (fun ev => match ev with UiAlert m => [m] | _ => [] end)
           (trace u).

Definition ui_reloaded (u : Ui) : Prop := In UiReload (trace u).

(** What the [catch] block of [signTransaction] appends. *)
Definition ui_caught (e : Caught) : list UiEvent :=
  UiConsoleError e :: (if caught_isError e then [UiAlert (caught_message e)] else []).

(** The body [signTransaction] posts for a signature [sg]. *)
Definition signBody (address0 : string) (t : TransactionWithSignatures)
  (sg : string) : CreateSignatureBody :=
  {| cs_signerAddress := address0; cs_signature := sg;
     cs_transactionId := tx_id t |}.

(** The component after [signTransaction] did [evs] and then caught [e]. *)
Definition ui_failed (u : Ui) (evs : list UiEvent) (e : Caught) : Ui :=
  {| walletTxns := walletTxns u; loading := false;
     trace := trace u ++ evs ++ ui_caught e |}.

(** The alerts of a run of [sendTransaction]. *)
Definition alerts (w : World) : list string :=
  flat_map (fun ev => match ev with Alert m => [m] | _ => [] end) (log w).

(** The signatures recorded under an address that is one of [ss]. *)
Definition signedBySigners (ss : list string) (sigs : list Signature)
  : list Signature :=
  List.filter (fun sg => existsb (String.eqb (signerAddress sg)) ss) sigs.

(** Sample collaborators of the component. *)
Module SampleUi.

Definition env_signing : ComponentEnv :=
  {| walletClient := Some (fun raw => inr (String.append "0x51" raw));
     getUserOpHash := fun _ => inr "0xha5h"%string;
     fetch_transactions := fun _ =>
       inr {| data_error := JAbsent;
              data_transactions := [Sample.t_B] |};
     create_signature := fun _ => inr JAbsent |}.

(** The user rejects the signature request in the wallet. *)
Definition env_user_rejects : ComponentEnv :=
  {| walletClient := Some (fun _ =>
       inl {| fault_isError := true;
              fault_message := "User rejected the request." |});
     getUserOpHash := fun _ => inr "0xha5h"%string;
     fetch_transactions := fun _ =>
       inr {| data_error := JObject; data_transactions := [] |};
     create_signature := fun _ => inr JAbsent |}.

(** A wallet whose signer is stored in lower case, and its unsigned
    proposal. *)
Definition wallet_lower : Wallet :=
  {| wallet_id := 6%Z; address := "0x5b03"; signers := ["0xab12"%string];
     isDeployed := false |}.
Definition t_pending_lower : TransactionWithSignatures :=
  {| tx_id := 9%Z; userOp := Sample.op; wallet := wallet_lower;
     signatures := []; pendingSigners := ["0xab12"%string]; txHash := None |}.

End SampleUi.

(** * Properties *)

(** ** The nested loops as a concatenation over the signers *)

Section Ordering.

Implicit Types (ss : list string) (sigs : list Signature).

Lemma forEach_signatures signer sigs acc :
  forEach sigs (fun sg orderedSignatures =>
      if String.eqb (signerAddress sg) signer
      then push (signature sg) orderedSignatures
      else orderedSignatures) acc
  = acc ++ map signature (signedBy signer sigs).
Proof.
  unfold forEach, signedBy. revert acc.
  induction sigs as [|sg sigs IH]; intros acc; simpl.
  - now rewrite app_nil_r.
  - rewrite IH. destruct (String.eqb (signerAddress sg) signer); simpl.
    + unfold push. now rewrite <- app_assoc.
    + reflexivity.
Qed.

Lemma forEach_signers ss sigs acc :
  forEach ss (fun signer =>
    forEach sigs (fun sg orderedSignatures =>
      if String.eqb (signerAddress sg) signer
      then push (signature sg) orderedSignatures
      else orderedSignatures)) acc
  = acc ++ flat_map (fun s => map signature (signedBy s sigs)) ss.
Proof.
  unfold forEach at 1. revert acc.
  induction ss as [|s ss IH]; intros acc; simpl.
  - now rewrite app_nil_r.
  - rewrite IH, forEach_signatures. now rewrite <- app_assoc.
Qed.

Lemma orderSignatures_flat_map ss sigs :
  orderSignatures ss sigs
  = flat_map (fun s => map signature (signedBy s sigs)) ss.
Proof. unfold orderSignatures. now rewrite forEach_signers. Qed.

Lemma orderSignatures_cons s ss sigs :
  orderSignatures (s :: ss) sigs
  = map signature (signedBy s sigs) ++ orderSignatures ss sigs.
Proof. now rewrite !orderSignatures_flat_map. Qed.

Lemma orderSignatures_length ss sigs :
  length (orderSignatures ss sigs)
  = list_sum (map (fun s => length (signedBy s sigs)) ss).
Proof.
  induction ss as [|s ss IH]; [reflexivity|].
  rewrite orderSignatures_cons, length_app, length_map, IH. reflexivity.
Qed.

Lemma In_signedBy s sg sigs :
  In sg (signedBy s sigs) <-> In sg sigs /\ signerAddress sg = s.
Proof.
  unfold signedBy. rewrite filter_In, String.eqb_eq. reflexivity.
Qed.

Lemma In_orderSignatures x ss sigs :
  In x (orderSignatures ss sigs) <->
  exists s sg, In s ss /\ In sg sigs /\ signerAddress sg = s
               /\ signature sg = x.
Proof.
  rewrite orderSignatures_flat_map, in_flat_map. split.
  - intros (s & Hs & Hx). apply in_map_iff in Hx as (sg & Hsig & Hsg).
    apply In_signedBy in Hsg as [Hsg Ha]. now exists s, sg.
  - intros (s & sg & Hs & Hsg & Ha & Hx). exists s. split; [assumption|].
    apply in_map_iff. exists sg. split; [assumption|].
    apply In_signedBy. now split.
Qed.

(** At most one signature per address: every signer contributes at most
    one entry. *)
Lemma signedBy_NoDup s sigs :
  List.NoDup (map signerAddress sigs) -> length (signedBy s sigs) <= 1.
Proof.
  unfold signedBy. induction sigs as [|sg sigs IH]; simpl; intros Hnd; [lia|].
  inversion Hnd as [|? ? Hnotin Hnd']; subst.
  destruct (String.eqb (signerAddress sg) s) eqn:E; [|now apply IH].
  apply String.eqb_eq in E. simpl.
  assert (List.filter (fun sg0 => String.eqb (signerAddress sg0) s) sigs = [])
    as ->; [|simpl; lia].
  destruct (List.filter _ sigs) as [|sg' l] eqn:F; [reflexivity|].
  exfalso. apply Hnotin.
  assert (In sg' (signedBy s sigs)) as Hin
      by (unfold signedBy; rewrite F; now left).
  apply In_signedBy in Hin as [Hin Ha].
  rewrite E, <- Ha. now apply in_map.
Qed.

Lemma signedBy_Permutation s sigs sigs' :
  Permutation sigs' sigs -> Permutation (signedBy s sigs') (signedBy s sigs).
Proof.
  unfold signedBy. induction 1; simpl.
  - constructor.
  - destruct (String.eqb _ _); [now constructor | assumption].
  - destruct (String.eqb _ _), (String.eqb _ _);
      try apply Permutation_refl; apply perm_swap.
  - etransitivity; eassumption.
Qed.

Lemma signedBy_Permutation_eq s sigs sigs' :
  List.NoDup (map signerAddress sigs) -> Permutation sigs' sigs ->
  signedBy s sigs' = signedBy s sigs.
Proof.
  intros Hnd Hp.
  pose proof (signedBy_NoDup s sigs Hnd) as Hlen.
  pose proof (signedBy_Permutation s _ _ Hp) as Hp'.
  destruct (signedBy s sigs) as [|a [|b l]]; simpl in Hlen; try lia.
  - symmetry in Hp'. now apply Permutation_nil in Hp'.
  - symmetry in Hp'. now apply Permutation_length_1_inv in Hp'.
Qed.

Lemma orderSignatures_Permutation ss sigs sigs' :
  List.NoDup (map signerAddress sigs) -> Permutation sigs' sigs ->
  orderSignatures ss sigs' = orderSignatures ss sigs.
Proof.
  intros Hnd Hp. rewrite !orderSignatures_flat_map.
  induction ss as [|s ss IH]; simpl; [reflexivity|].
  now rewrite IH, (signedBy_Permutation_eq s sigs sigs').
Qed.

(** When every signer contributes at most one entry and the total is the
    number of signers, every signer contributes exactly one, at its own
    position. *)
Lemma orderSignatures_positional ss sigs :
  (forall s, length (signedBy s sigs) <= 1) ->
  length (orderSignatures ss sigs) = length ss ->
  forall i s, nth_error ss i = Some s ->
    exists sg, signedBy s sigs = [sg]
               /\ nth_error (orderSignatures ss sigs) i = Some (signature sg).
Proof.
  intros Hle. induction ss as [|s0 ss IH]; intros Hlen i s Hi.
  - destruct i; discriminate.
  - rewrite orderSignatures_cons in *.
    rewrite length_app, length_map in Hlen. simpl in Hlen.
    assert (length (orderSignatures ss sigs) <= length ss) as Hrest.
    { rewrite orderSignatures_length. clear -Hle. induction ss as [|a l IHl]; simpl.
      - lia.
      - specialize (Hle a). lia. }
    pose proof (Hle s0) as H0.
    destruct (signedBy s0 sigs) as [|sg [|sg' l]] eqn:E; simpl in *; try lia.
    destruct i as [|i]; simpl in *.
    + injection Hi as <-. exists sg. now rewrite E.
    + apply IH; [lia | assumption].
Qed.

End Ordering.

(** ** The persistence route, case by case *)

Section Persistence.

Implicit Types (w : World) (b : UpdateBody).

Ltac run_monad :=
  cbv beta iota zeta delta
    [POST try_catch bind req_json prisma_wallet_update_isDeployed
     prisma_transaction_update_txHash get_db put_db throw ret emit
     logged with_wallets updated_row];
  cbn [db log wallets transactions].

Lemma POST_not_json w :
  exists c f,
    POST None w = (logged (ServerConsoleError (Rejection c f)) w,
                   Ok (JsonError (Rejection c f))).
Proof. do 2 eexists. run_monad. reflexivity. Qed.

Lemma POST_no_wallet w b :
  match walletId b with
  | None => True
  | Some k => wallets (db w) !! k = None
  end ->
  exists c f,
    POST (Some b) w = (logged (ServerConsoleError (Rejection c f)) w,
                       Ok (JsonError (Rejection c f))).
Proof.
  intros H. run_monad. destruct (walletId b) as [k|]; simpl.
  - rewrite H. do 2 eexists. reflexivity.
  - do 2 eexists. reflexivity.
Qed.

Lemma POST_no_transaction w b k wl :
  walletId b = Some k ->
  wallets (db w) !! k = Some wl ->
  update_refused b w ->
  exists c f,
    POST (Some b) w
    = (logged (ServerConsoleError (Rejection c f))
         (with_wallets (<[k := set_isDeployed true wl]> (wallets (db w))) w),
       Ok (JsonError (Rejection c f))).
Proof.
  unfold update_refused. intros Hk Hwl H. run_monad.
  rewrite Hk; simpl. rewrite Hwl; simpl.
  destruct (transactionId b) as [i|]; simpl.
  - destruct H as [H|H].
    + rewrite H. do 2 eexists. reflexivity.
    + destruct (body_txHash b); simpl; try rewrite H;
        do 2 eexists; reflexivity.
  - do 2 eexists. reflexivity.
Qed.

Lemma POST_updates w b k wl i r :
  walletId b = Some k ->
  wallets (db w) !! k = Some wl ->
  transactionId b = Some i ->
  transactions (db w) !! i = Some r ->
  body_txHash b <> TxInvalid ->
  POST (Some b) w
  = ({| db := {| wallets := <[k := set_isDeployed true wl]> (wallets (db w));
                 transactions :=
                   <[i := updated_row (body_txHash b) r]> (transactions (db w)) |};
        log := log w |},
     Ok (JsonTransaction (updated_row (body_txHash b) r))).
Proof.
  intros Hk Hwl Hi Hr Hv. run_monad. rewrite Hk; simpl. rewrite Hwl; simpl.
  rewrite Hi; simpl.
  destruct (body_txHash b); simpl; try rewrite Hr; simpl;
    [reflexivity | reflexivity | reflexivity | congruence].
Qed.

Lemma POST_cases body w :
  exists w' j, POST body w = (w', Ok j) /\ POST_case body w w' j.
Proof.
  destruct body as [b|].
  - destruct (walletId b) as [k|] eqn:Hk.
    + destruct (wallets (db w) !! k) as [wl|] eqn:Hwl.
      * destruct (transactionId b) as [i|] eqn:Hi.
        -- assert (body_txHash b = TxInvalid \/ body_txHash b <> TxInvalid)
             as [Hv|Hv] by (destruct (body_txHash b); auto; right; discriminate).
           ++ destruct (POST_no_transaction w b k wl Hk Hwl) as (c & f & He);
                [unfold update_refused; rewrite Hi; now left|].
              do 2 eexists. split; [exact He|].
              eapply POST_rejected_late; eauto.
              unfold update_refused. rewrite Hi. now left.
           ++ destruct (transactions (db w) !! i) as [r|] eqn:Hr.
              ** do 2 eexists.
                 split; [now apply (POST_updates w b k wl i r)|].
                 now eapply POST_accepted.
              ** destruct (POST_no_transaction w b k wl Hk Hwl) as (c & f & He);
                   [unfold update_refused; rewrite Hi; now right|].
                 do 2 eexists. split; [exact He|].
                 eapply POST_rejected_late; eauto.
                 unfold update_refused. rewrite Hi. now right.
        -- destruct (POST_no_transaction w b k wl Hk Hwl) as (c & f & He);
             [unfold update_refused; now rewrite Hi|].
           do 2 eexists. split; [exact He|].
           eapply POST_rejected_late; eauto.
           unfold update_refused. now rewrite Hi.
      * destruct (POST_no_wallet w b) as (c & f & He); [now rewrite Hk|].
        do 2 eexists. split; [exact He|].
        apply POST_rejected_early. now rewrite Hk.
    + destruct (POST_no_wallet w b) as (c & f & He); [now rewrite Hk|].
      do 2 eexists. split; [exact He|].
      apply POST_rejected_early. now rewrite Hk.
  - destruct (POST_not_json w) as (c & f & He).
    do 2 eexists. split; [exact He|]. now apply POST_rejected_early.
Qed.

End Persistence.

(** ** sendTransaction, case by case *)

Section Submission.

Implicit Types (env : Env) (t : TransactionWithSignatures) (d : Db).

Lemma run_sendTransaction_eq env t d :
  run_sendTransaction env t d =
  match clientInit env with
  | Some f => {| db := d; log := ClientInit :: caught (Rejection Bundler f) |}
  | None =>
      if negb (quorum_met t)
      then {| db := d; log := ClientInit :: caught incomplete_quorum |}
      else
        match executionSubmitter env (requestOf t) with
        | inl f =>
            {| db := d;
               log := [ClientInit; SendUserOperation (requestOf t)]
                        ++ caught (Rejection Bundler f) |}
        | inr h =>
            match delivery env (persistBody t h) with
            | RequestLost f =>
                {| db := d;
                   log := [ClientInit; SendUserOperation (requestOf t);
                           FetchRejected (persistBody t h) f]
                            ++ caught (Rejection Browser f) |}
            | ResponseLost f =>
                match POST (Some (persistBody t h))
                        {| db := d;
                           log := [ClientInit; SendUserOperation (requestOf t)] |}
                with
                | (w', Ok j) =>
                    {| db := db w';
                       log := log w' ++ [FetchRejected (persistBody t h) f]
                                ++ caught (Rejection Browser f) |}
                | (w', Throw e) => {| db := db w'; log := log w' ++ caught e |}
                end
            | Delivered =>
                match POST (Some (persistBody t h))
                        {| db := d;
                           log := [ClientInit; SendUserOperation (requestOf t)] |}
                with
                | (w', Ok j) =>
                    {| db := db w';
                       log := log w' ++ [Fetch (persistBody t h) j;
                                         Alert "Transaction sent successfully";
                                         Reload] |}
                | (w', Throw e) => {| db := db w'; log := log w' ++ caught e |}
                end
            end
        end
  end.
Proof.
  unfold run_sendTransaction, sendTransaction, try_catch, initial.
  unfold bind at 1. unfold Client_init at 1. unfold bind at 1.
  cbn [emit db log app].
  destruct (clientInit env) as [f|].
  - unfold throw, bind, emit, ret, caught; cbn.
    destruct (fault_isError f); reflexivity.
  - unfold ret at 1.
    change (orderSignatures (signers (wallet t)) (signatures t))
      with (orderedSignaturesOf t).
    change (length (orderedSignaturesOf t) =? length (signers (wallet t)))
      with (quorum_met t).
    destruct (quorum_met t); cbn [negb].
    + unfold bind at 1. unfold sendUserOperation. unfold bind at 1.
      cbn [emit db log app].
      change {| req_sender := sender (userOp t);
                req_nonce := nonce (userOp t);
                req_initCode :=
                  if isDeployed (wallet t) then [] else initCode (userOp t);
                req_callData := callData (userOp t);
                req_signatures := orderedSignaturesOf t;
                req_maxFeePerGas := maxFeePerGas (userOp t);
                req_maxPriorityFeePerGas := maxPriorityFeePerGas (userOp t) |}
        with (requestOf t).
      destruct (executionSubmitter env (requestOf t)) as [f|h].
      * unfold throw, bind, emit, ret, caught; cbn.
        destruct (fault_isError f); reflexivity.
      * unfold ret at 1. unfold bind at 1.
        unfold fetch_update_wallet_deployed. unfold bind at 1.
        change {| walletId := Some (wallet_id (wallet t));
                  transactionId := Some (tx_id t);
                  body_txHash := hashField h |} with (persistBody t h).
        destruct (delivery env (persistBody t h)) as [|f|f].
        -- unfold bind at 1. unfold bind at 1.
           destruct (POST (Some (persistBody t h)) _) as [w' [j|e]].
           ++ unfold bind, emit, ret; cbn. now rewrite <- !app_assoc.
           ++ unfold bind, emit, ret, caught; cbn.
              destruct (instanceofError e); cbn; [|reflexivity].
              now rewrite <- app_assoc.
        -- unfold throw, bind, emit, ret, caught; cbn.
           destruct (fault_isError f); reflexivity.
        -- unfold bind at 1. unfold bind at 1.
           destruct (POST (Some (persistBody t h)) _) as [w' [j|e]].
           ++ unfold throw, bind, emit, ret, caught; cbn.
              destruct (fault_isError f); cbn; now rewrite <- !app_assoc.
           ++ unfold bind, emit, ret, caught; cbn.
              destruct (instanceofError e); cbn; [|reflexivity].
              now rewrite <- app_assoc.
    + unfold throw, bind, emit, ret, caught; cbn. reflexivity.
Qed.

Lemma run_sendTransaction_outcome env t d :
  SendOutcome env t d (run_sendTransaction env t d).
Proof.
  rewrite run_sendTransaction_eq.
  destruct (clientInit env) as [f|] eqn:Hinit; [now constructor|].
  destruct (quorum_met t) eqn:Hq; cbn [negb]; [|now constructor].
  destruct (executionSubmitter env (requestOf t)) as [f|h] eqn:Hs;
    [now constructor|].
  destruct (POST_cases (Some (persistBody t h))
              {| db := d; log := [ClientInit; SendUserOperation (requestOf t)] |})
    as (w' & j & Hp & Hcase).
  destruct (delivery env (persistBody t h)) as [|f|f] eqn:Hd.
  - rewrite Hp. now apply (Sent env t d h w' j).
  - now apply (Request_lost env t d h f).
  - rewrite Hp. now apply (Response_lost env t d h f w' j).
Qed.


Lemma caught_requested e :
  flat_map (fun ev => match ev with
                      | Fetch b _ => [b]
                      | FetchRejected b _ => [b]
                      | _ => []
                      end)
    (caught e) = [].
Proof. unfold caught. now destruct (instanceofError e). Qed.

Lemma caught_submitted e :
  flat_map (fun ev => match ev with SendUserOperation r => [r] | _ => [] end)
    (caught e) = [].
Proof. unfold caught. now destruct (instanceofError e). Qed.

Lemma caught_persisted e :
  flat_map (fun ev => match ev with Fetch b j => [(b, j)] | _ => [] end)
    (caught e) = [].
Proof. unfold caught. now destruct (instanceofError e). Qed.

Lemma caught_failures e :
  flat_map (fun ev => match ev with ConsoleError e0 => [e0] | _ => [] end)
    (caught e) = [e].
Proof. unfold caught. now destruct (instanceofError e). Qed.

Lemma caught_not_Reload e : ~ In Reload (caught e).
Proof.
  unfold caught. destruct (instanceofError e); simpl; intuition discriminate.
Qed.

End Submission.

(** ** What a call of sendTransaction leaves behind *)

Section Observations.

Implicit Types (env : Env) (t : TransactionWithSignatures) (d : Db) (w : World).

Ltac observe :=
  unfold submitted, persisted, failures, sent, logged, with_wallets in *;
  cbn [db log app flat_map] in *;
  rewrite ?flat_map_app, ?caught_submitted, ?caught_persisted,
    ?caught_failures in *;
  cbn [db log app flat_map] in *;
  rewrite ?caught_submitted, ?caught_persisted, ?caught_failures in *.

Lemma outcome_submitted env t d w :
  SendOutcome env t d w ->
  submitted w = []
  \/ (submitted w = [requestOf t] /\ clientInit env = None
      /\ quorum_met t = true).
Proof.
  intros [f Hinit | Hinit Hq | f Hinit Hq Hs | h f Hinit Hq Hs Hd
         | h f w' j Hinit Hq Hs Hd Hp | h w' j Hinit Hq Hs Hd Hp].
  - left. observe. reflexivity.
  - left. observe. reflexivity.
  - right. observe. auto.
  - right. observe. auto.
  - right. destruct Hp; observe; auto.
  - right. destruct Hp; observe; auto.
Qed.

Lemma outcome_submitted_once env t d w :
  SendOutcome env t d w -> clientInit env = None -> quorum_met t = true ->
  submitted w = [requestOf t].
Proof.
  intros [f Hinit | Hinit Hq | f Hinit Hq Hs | h f Hinit Hq Hs Hd
         | h f w' j Hinit Hq Hs Hd Hp | h w' j Hinit Hq Hs Hd Hp] Hi Hq';
    try congruence.
  - observe. reflexivity.
  - observe. reflexivity.
  - destruct Hp; observe; reflexivity.
  - destruct Hp; observe; reflexivity.
Qed.

Lemma outcome_quorum_failed env t d w :
  SendOutcome env t d w -> quorum_met t = false ->
  submitted w = [] /\ persisted w = [] /\ db w = d /\ ~ sent w
  /\ (exists e, failures w = [e])
  /\ (clientInit env = None ->
      failures w = [incomplete_quorum]
      /\ log w = [ClientInit; ConsoleError incomplete_quorum;
                  Alert "Fewer signatures received than expected"]).
Proof.
  intros [f Hinit | Hinit Hq | f Hinit Hq Hs | h f Hinit Hq Hs Hd
         | h f w' j Hinit Hq Hs Hd Hp | h w' j Hinit Hq Hs Hd Hp] Hq';
    try congruence.
  - observe. repeat split; eauto.
    + intros [H|H]; [discriminate | now apply caught_not_Reload in H].
    + congruence.
    + congruence.
  - observe. repeat split; eauto.
    intros [H|H]; [discriminate | now apply caught_not_Reload in H].
Qed.

(** A run that did not reach its end left the database as it was, unless
    the route handled the request and its answer was lost. *)
Lemma outcome_not_sent env t d w :
  SendOutcome env t d w -> ~ sent w ->
  persisted w = []
  /\ (db w = d
      \/ exists h f,
          clientInit env = None /\ quorum_met t = true
          /\ executionSubmitter env (requestOf t) = inr h
          /\ delivery env (persistBody t h) = ResponseLost f
          /\ db w = db (fst (POST (Some (persistBody t h)) (initial d)))).
Proof.
  intros [f Hinit | Hinit Hq | f Hinit Hq Hs | h f Hinit Hq Hs Hd
         | h f w' j Hinit Hq Hs Hd Hp | h w' j Hinit Hq Hs Hd Hp] Hns.
  - observe. auto.
  - observe. auto.
  - observe. auto.
  - observe. auto.
  - split; [destruct Hp; observe; reflexivity|].
    right. exists h, f. repeat split; auto. cbn [db].
    destruct (POST_cases (Some (persistBody t h)) (initial d))
      as (w0 & j0 & Hp0 & Hc0).
    rewrite Hp0. cbn [fst].
    destruct Hp as [c1 f1 Hb | c1 f1 b1 k1 wl1 Hb Hk Hwl Hr
                   | b1 k1 wl1 i1 r1 Hb Hk Hwl Hi Hr Hv];
      destruct Hc0 as [c2 f2 Hb' | c2 f2 b2 k2 wl2 Hb' Hk' Hwl' Hr'
                      | b2 k2 wl2 i2 r2 Hb' Hk' Hwl' Hi' Hr' Hv'];
      unfold logged, with_wallets, update_refused, initial in *;
      cbn [db log wallets transactions] in *;
      try (injection Hb as <-); try (injection Hb' as <-);
      cbn [persistBody walletId transactionId body_txHash] in *;
      repeat match goal with
             | H : Some _ = Some _ |- _ => injection H as <-
             | H : ?x = Some _, H' : ?x = Some _ |- _ =>
                 rewrite H in H'; injection H' as <-
             | H : ?x = Some _, H' : ?x = None |- _ =>
                 rewrite H in H'; discriminate H'
             end;
      try reflexivity; try congruence;
      try (destruct Hr as [Hr|Hr]; congruence);
      try (destruct Hr' as [Hr'|Hr']; congruence).
  - exfalso. apply Hns. unfold sent. cbn [log].
    apply in_or_app. right. simpl. auto.
Qed.

Lemma outcome_quorum_error env t d w :
  SendOutcome env t d w -> In incomplete_quorum (failures w) ->
  quorum_met t = false.
Proof.
  intros [f Hinit | Hinit Hq | f Hinit Hq Hs | h f Hinit Hq Hs Hd
         | h f w' j Hinit Hq Hs Hd Hp | h w' j Hinit Hq Hs Hd Hp] Hin;
    try assumption; exfalso.
  - observe. destruct Hin as [H|[]]. discriminate.
  - observe. destruct Hin as [H|[]]. discriminate.
  - observe. destruct Hin as [H|[]]. discriminate.
  - destruct Hp; observe; rewrite ?app_nil_r in Hin; simpl in Hin;
      intuition discriminate.
  - destruct Hp; observe; rewrite ?app_nil_r in Hin; simpl in Hin;
      intuition discriminate.
Qed.


End Observations.

(** ** Counting the matching index pairs *)

Section Counting.

Lemma list_prod_app_l {A B : Type} (l1 l2 : list A) (l : list B) :
  list_prod (l1 ++ l2) l = list_prod l1 l ++ list_prod l2 l.
Proof.
  induction l1 as [|a l1 IH]; simpl; [reflexivity|].
  now rewrite IH, app_assoc.
Qed.

Lemma count_by_index {A : Type} (p : A -> bool) (l : list A) :
  length (List.filter
            (fun j => match nth_error l j with
                      | Some a => p a
                      | None => false
                      end)
            (seq 0 (length l)))
  = length (List.filter p l).
Proof.
  induction l as [|a l IH] using rev_ind; [reflexivity|].
  rewrite length_app. simpl length. rewrite Nat.add_1_r, seq_S.
  rewrite !List.filter_app, !length_app. simpl plus. f_equal.
  - rewrite <- IH. f_equal. apply List.filter_ext_in.
    intros j Hj. apply in_seq in Hj.
    rewrite nth_error_app1 by lia. reflexivity.
  - simpl. rewrite nth_error_app2 by lia. rewrite Nat.sub_diag. simpl.
    now destruct (p a).
Qed.

Lemma matchingPairs_length (ss : list string) (sigs : list Signature) :
  length (matchingPairs ss sigs)
  = list_sum (map (fun s => length (signedBy s sigs)) ss).
Proof.
  unfold matchingPairs.
  induction ss as [|s ss IH] using rev_ind; [reflexivity|].
  rewrite length_app. simpl length. rewrite Nat.add_1_r, seq_S.
  rewrite list_prod_app_l, List.filter_app, length_app.
  rewrite map_app, list_sum_app. simpl plus. f_equal.
  - rewrite <- IH. f_equal. apply List.filter_ext_in.
    intros [i j] Hij. apply in_prod_iff in Hij as [Hi _].
    apply in_seq in Hi. simpl.
    rewrite nth_error_app1 by lia. reflexivity.
  - simpl. rewrite app_nil_r, Nat.add_0_r. unfold signedBy.
    rewrite <- (count_by_index (fun sg => String.eqb (signerAddress sg) s) sigs).
    generalize (seq 0 (length sigs)). intros js.
    induction js as [|j js IHjs]; simpl; [reflexivity|].
    rewrite nth_error_app2 by lia. rewrite Nat.sub_diag. simpl.
    destruct (nth_error sigs j) as [sg|]; [|assumption].
    destruct (String.eqb (signerAddress sg) s); simpl; now rewrite IHjs.
Qed.

End Counting.

(** ** Signers, pending signers and sums *)

Section Quorum.

Lemma signedBy_existsb (s : string) (sigs : list Signature) :
  existsb (fun sg => String.eqb (signerAddress sg) s) sigs = true
  <-> signedBy s sigs <> [].
Proof.
  unfold signedBy. induction sigs as [|sg sigs IH]; simpl.
  - split; [discriminate | congruence].
  - destruct (String.eqb (signerAddress sg) s); simpl.
    + split; [discriminate | reflexivity].
    + exact IH.
Qed.

Lemma pendingSignersOf_nil (ss : list string) (sigs : list Signature) :
  pendingSignersOf ss sigs = []
  <-> forall s, In s ss -> signedBy s sigs <> [].
Proof.
  unfold pendingSignersOf. induction ss as [|s ss IH]; simpl.
  - split; [intros _ s [] | reflexivity].
  - destruct (existsb _ sigs) eqn:E; simpl.
    + rewrite IH. split.
      * intros H s' [<-|Hs']; [now apply signedBy_existsb | now apply H].
      * intros H s' Hs'. apply H. now right.
    + split; [discriminate|]. intros H. exfalso.
      specialize (H s (or_introl eq_refl)).
      apply signedBy_existsb in H. congruence.
Qed.

(** With the pending set as the transactions endpoint derives it, nobody
    pending means every signer has signed. *)
Lemma no_pending_every_signer_signed (t : TransactionWithSignatures) :
  fetched t -> pendingSigners t = [] -> every_signer_signed t.
Proof.
  unfold fetched. intros -> Hp s Hs.
  pose proof (proj1 (pendingSignersOf_nil _ _) Hp s Hs) as Hne.
  destruct (signedBy s (signatures t)) as [|sg l] eqn:E; [congruence|].
  exists sg. apply In_signedBy. rewrite E. now left.
Qed.

Lemma list_sum_all_one {A : Type} (f : A -> nat) (l : list A) :
  (forall x, In x l -> f x = 1) -> list_sum (map f l) = length l.
Proof.
  induction l as [|a l IH]; simpl; intros H; [reflexivity|].
  rewrite (H a) by now left. rewrite IH; [reflexivity|].
  intros x Hx. apply H. now right.
Qed.

Lemma list_sum_le_length {A : Type} (f : A -> nat) (l : list A) :
  (forall x, f x <= 1) -> list_sum (map f l) <= length l.
Proof.
  intros H. induction l as [|a l IH]; simpl; [lia|]. specialize (H a). lia.
Qed.

Lemma list_sum_lt_length {A : Type} (f : A -> nat) (l : list A) (x : A) :
  (forall y, f y <= 1) -> In x l -> f x = 0 -> list_sum (map f l) < length l.
Proof.
  intros H Hin Hx. induction l as [|a l IH]; simpl; [destruct Hin|].
  destruct Hin as [->|Hin].
  - pose proof (list_sum_le_length f l H). lia.
  - specialize (IH Hin). specialize (H a). lia.
Qed.

Lemma NoDup_map_In_inj {A B : Type} (f : A -> B) (l : list A) (x y : A) :
  List.NoDup (map f l) -> In x l -> In y l -> f x = f y -> x = y.
Proof.
  induction l as [|a l IH]; simpl; intros Hnd Hx Hy Hf; [destruct Hx|].
  inversion Hnd as [|? ? Hnotin Hnd']; subst.
  destruct Hx as [->|Hx], Hy as [->|Hy]; auto.
  - exfalso. apply Hnotin. rewrite Hf. now apply in_map.
  - exfalso. apply Hnotin. rewrite <- Hf. now apply in_map.
Qed.

Lemma quorum_met_true (t : TransactionWithSignatures) :
  quorum_met t = true
  <-> length (orderedSignaturesOf t) = length (signers (wallet t)).
Proof. unfold quorum_met. apply Nat.eqb_eq. Qed.

Lemma quorum_met_false (t : TransactionWithSignatures) :
  quorum_met t = false
  <-> length (orderedSignaturesOf t) <> length (signers (wallet t)).
Proof. unfold quorum_met. apply Nat.eqb_neq. Qed.

End Quorum.

(** * The claims *)

(** ** C1 *)

Section SignerOrder.

Lemma list_sum_ge_length {A : Type} (f : A -> nat) (l : list A) :
  (forall x, In x l -> 1 <= f x) -> length l <= list_sum (map f l).
Proof.
  induction l as [|a l IH]; simpl; intros H; [lia|].
  pose proof (H a (or_introl eq_refl)).
  assert (length l <= list_sum (map f l)) by (apply IH; intros; apply H; auto).
  lia.
Qed.

(** When every listed signer has signed and the total is the number of
    signers, every signer contributes exactly one entry, at its own
    position. *)
Lemma orderSignatures_positional_signed (ss : list string)
  (sigs : list Signature) :
  (forall s, In s ss -> signedBy s sigs <> []) ->
  length (orderSignatures ss sigs) = length ss ->
  forall i s, nth_error ss i = Some s ->
    exists sg, signedBy s sigs = [sg]
               /\ nth_error (orderSignatures ss sigs) i = Some (signature sg).
Proof.
  induction ss as [|s0 ss IH]; intros Hall Hlen i s Hi.
  - destruct i; discriminate.
  - rewrite orderSignatures_cons in *.
    rewrite length_app, length_map in Hlen. simpl in Hlen.
    assert (length ss <= length (orderSignatures ss sigs)) as Hrest.
    { rewrite orderSignatures_length. apply list_sum_ge_length.
      intros x Hx. specialize (Hall x (or_intror Hx)).
      destruct (signedBy x sigs); [congruence | simpl; lia]. }
    pose proof (Hall s0 (or_introl eq_refl)) as H0.
    destruct (signedBy s0 sigs) as [|sg [|sg' l]] eqn:E; simpl in *;
      [congruence | | lia].
    destruct i as [|i]; simpl in *.
    + injection Hi as <-. exists sg. now rewrite E.
    + apply IH; [intros; apply Hall; auto | lia | assumption].
Qed.

Lemma orderSignatures_Permutation_signed (ss : list string)
  (sigs sigs' : list Signature) :
  (forall s, In s ss -> exists sg, signedBy s sigs = [sg]) ->
  Permutation sigs' sigs ->
  orderSignatures ss sigs' = orderSignatures ss sigs.
Proof.
  intros Hone Hp. rewrite !orderSignatures_flat_map.
  induction ss as [|s ss IH]; simpl; [reflexivity|].
  rewrite IH by (intros; apply Hone; now right). f_equal. f_equal.
  destruct (Hone s (or_introl eq_refl)) as [sg Hsg].
  pose proof (signedBy_Permutation s _ _ Hp) as Hp'. rewrite Hsg in *.
  symmetry in Hp'. now apply Permutation_length_1_inv in Hp'.
Qed.

Lemma execute_offered_no_pending (address0 : string)
  (t : TransactionWithSignatures) :
  renderAction address0 t = ExecuteTxn -> pendingSigners t = [].
Proof.
  unfold renderAction. destruct (Str.truthy (txHash t)); [discriminate|].
  destruct (pendingSigners t) as [|p l]; [reflexivity|].
  cbn [length Nat.eqb]. destruct (Str.includes _ _); discriminate.
Qed.

End SignerOrder.

(** C1: for every proposal that the transactions endpoint delivers and for
    which the component offers the execute action, if the submission
    proceeds (a package reaches the execution submitter) then the package
    carries one signature per signer, the i-th being the signature recorded
    by the i-th entry of [wallet.signers], and the whole run is the same
    for every order in which the signatures were recorded. *)
Theorem signatures_follow_signer_order
  (env : Env) (address0 : string) (t : TransactionWithSignatures) (d : Db)
  (req : UserOperationRequest) :
  fetched t ->
  renderAction address0 t = ExecuteTxn ->
  In req (submitted (run_sendTransaction env t d)) ->
  length (req_signatures req) = length (signers (wallet t))
  /\ (forall i signer,
         nth_error (signers (wallet t)) i = Some signer ->
         exists sg, signedBy signer (signatures t) = [sg]
                    /\ nth_error (req_signatures req) i = Some (signature sg))
  /\ (forall sigs',
         Permutation sigs' (signatures t) ->
         run_sendTransaction env (with_signatures sigs' t) d
         = run_sendTransaction env t d).
Proof.
  intros Hf Hex Hin.
  apply execute_offered_no_pending in Hex.
  unfold fetched in Hf. rewrite Hf in Hex.
  pose proof (proj1 (pendingSignersOf_nil _ _) Hex) as Hall.
  destruct (outcome_submitted env t d _ (run_sendTransaction_outcome env t d))
    as [Hnil | (Hsub & _ & Hq)].
  - rewrite Hnil in Hin. destruct Hin.
  - rewrite Hsub in Hin. destruct Hin as [<-|[]].
    apply quorum_met_true in Hq. cbn [requestOf req_signatures].
    pose proof (orderSignatures_positional_signed _ _ Hall Hq) as Hpos.
    split; [exact Hq|]. split; [exact Hpos|].
    intros sigs' Hp.
    unfold run_sendTransaction, sendTransaction.
    cbn [with_signatures signatures wallet userOp tx_id].
    rewrite (orderSignatures_Permutation_signed _ (signatures t) sigs');
      [reflexivity | | exact Hp].
    intros s Hs. apply In_nth_error in Hs as [i Hi].
    destruct (Hpos i s Hi) as (sg & Hsg & _). now exists sg.
Qed.

Lemma signatures_follow_signer_order_witness :
  renderAction Sample.A Sample.t_BA = ExecuteTxn
  /\ nth_error (req_signatures (requestOf Sample.t_BA)) 0
     = Some (signature Sample.sigA)
  /\ nth_error (req_signatures (requestOf Sample.t_BA)) 1
     = Some (signature Sample.sigB)
  /\ run_sendTransaction (Sample.env_ok "0x7a01")
       (with_signatures [Sample.sigA; Sample.sigB] Sample.t_BA) Sample.d_AB
     = run_sendTransaction (Sample.env_ok "0x7a01") Sample.t_BA Sample.d_AB.
Proof.
  split; [reflexivity|].
  destruct (signatures_follow_signer_order (Sample.env_ok "0x7a01") Sample.A
              Sample.t_BA Sample.d_AB (requestOf Sample.t_BA))
    as (_ & _ & Hperm).
  - reflexivity.
  - reflexivity.
  - vm_compute. now left.
  - split; [reflexivity|]. split; [reflexivity|].
    apply Hperm. apply perm_swap.
Defined.

(** ** C3 *)

(** C3: on a proposal that satisfies the data-model invariants (no signer
    address twice, at most one signature per signer address) and on which
    every signer has signed, exactly one ordered signature per signer is
    assembled, so no run of [sendTransaction] on it takes the
    incomplete-quorum branch. *)
Theorem quorum_error_unreachable_when_executable (t : TransactionWithSignatures) :
  unique_signers t ->
  one_signature_per_signer t ->
  every_signer_signed t ->
  length (orderedSignaturesOf t) = length (signers (wallet t))
  /\ forall env d,
       ~ In incomplete_quorum (failures (run_sendTransaction env t d)).
Proof.
  intros _ Hone Hall.
  assert (length (orderedSignaturesOf t) = length (signers (wallet t))) as Hlen.
  { unfold orderedSignaturesOf. rewrite orderSignatures_length.
    apply list_sum_all_one. intros s Hs.
    pose proof (signedBy_NoDup s (signatures t) Hone) as Hle.
    destruct (Hall s Hs) as (sg & Hsg & Ha).
    assert (In sg (signedBy s (signatures t))) as Hin
        by (apply In_signedBy; now split).
    destruct (signedBy s (signatures t)) as [|a [|b l]]; simpl in *;
      [contradiction | reflexivity | lia]. }
  split; [exact Hlen|]. intros env d Hin.
  apply (outcome_quorum_error env t d _ (run_sendTransaction_outcome env t d))
    in Hin.
  apply quorum_met_false in Hin. contradiction.
Qed.

Lemma quorum_error_unreachable_when_executable_witness :
  pendingSigners Sample.t_BA = []
  /\ length (orderedSignaturesOf Sample.t_BA) = 2
  /\ ~ In incomplete_quorum
        (failures (run_sendTransaction (Sample.env_ok "0x7a01")
                     Sample.t_BA Sample.d_AB)).
Proof.
  split; [reflexivity|].
  destruct (quorum_error_unreachable_when_executable Sample.t_BA) as [Hl Hn].
  - unfold unique_signers. simpl.
    repeat constructor; simpl; intuition discriminate.
  - unfold one_signature_per_signer. simpl.
    repeat constructor; simpl; intuition discriminate.
  - apply no_pending_every_signer_signed; reflexivity.
  - split; [exact Hl | apply Hn].
Defined.

(** ** C4 *)

(** C4, as the code has it: when the number of ordered signatures differs
    from the signer count the call fails, hands nothing to the execution
    submitter, issues no persistence request and leaves the database as it
    was; the failure is the incomplete-quorum error whenever the bundler
    client initialised. *)
Theorem quorum_mismatch_fails_before_submission
  (env : Env) (t : TransactionWithSignatures) (d : Db) :
  length (orderedSignaturesOf t) <> length (signers (wallet t)) ->
  submitted (run_sendTransaction env t d) = []
  /\ persisted (run_sendTransaction env t d) = []
  /\ db (run_sendTransaction env t d) = d
  /\ ~ sent (run_sendTransaction env t d)
  /\ (exists e, failures (run_sendTransaction env t d) = [e])
  /\ (clientInit env = None ->
      failures (run_sendTransaction env t d) = [incomplete_quorum]
      /\ log (run_sendTransaction env t d)
         = [ClientInit; ConsoleError incomplete_quorum;
            Alert "Fewer signatures received than expected"]).
Proof.
  intros Hne. apply quorum_met_false in Hne.
  exact (outcome_quorum_failed env t d _
           (run_sendTransaction_outcome env t d) Hne).
Qed.

Lemma quorum_mismatch_fails_before_submission_witness :
  length (orderedSignaturesOf Sample.t_B) <> length (signers (wallet Sample.t_B))
  /\ submitted (run_sendTransaction Sample.env_rejecting Sample.t_B Sample.d_AB) = []
  /\ db (run_sendTransaction Sample.env_rejecting Sample.t_B Sample.d_AB)
     = Sample.d_AB
  /\ failures (run_sendTransaction Sample.env_rejecting Sample.t_B Sample.d_AB)
     = [incomplete_quorum].
Proof.
  assert (length (orderedSignaturesOf Sample.t_B)
          <> length (signers (wallet Sample.t_B))) as Hne
      by (vm_compute; lia).
  split; [exact Hne|].
  destruct (quorum_mismatch_fails_before_submission
              Sample.env_rejecting Sample.t_B Sample.d_AB Hne)
    as (Hs & _ & Hd & _ & _ & Hq).
  split; [exact Hs|]. split; [exact Hd|]. now apply Hq.
Defined.

(** C4 as stated fails when the bundler client cannot be initialised: the
    signature count is wrong, yet what is caught and reported is the
    client's rejection, not the incomplete-quorum error. *)
Lemma quorum_error_masked_by_client_failure :
  length (orderedSignaturesOf Sample.t_B) <> length (signers (wallet Sample.t_B))
  /\ ~ In incomplete_quorum
        (failures (run_sendTransaction Sample.env_down Sample.t_B Sample.d_AB))
  /\ log (run_sendTransaction Sample.env_down Sample.t_B Sample.d_AB)
     = [ClientInit;
        ConsoleError (Rejection Bundler
                        {| fault_isError := true;
                           fault_message := "could not detect network" |});
        Alert "could not detect network"].
Proof.
  split; [vm_compute; lia|]. split; [|reflexivity].
  vm_compute. intros [H|[]]. discriminate.
Qed.

(** ** C10 *)

(** C10: the number of ordered signatures is the number of index pairs
    (i, j) with [signers[i] = signatures[j].signerAddress].  A signer listed
    twice has its signature counted twice (three ordered signatures out of
    two recorded ones); with two signatures under one address the
    quorum-length check passes and the package is handed over although B
    recorded no signature. *)
Theorem ordered_length_counts_matching_pairs :
  (forall t,
      length (orderedSignaturesOf t)
      = length (matchingPairs (signers (wallet t)) (signatures t)))
  /\ (length (signatures Sample.t_AAB) = 2
      /\ length (orderedSignaturesOf Sample.t_AAB) = 3)
  /\ (In Sample.B (signers (wallet Sample.t_AA))
      /\ signedBy Sample.B (signatures Sample.t_AA) = []
      /\ length (orderedSignaturesOf Sample.t_AA)
         = length (signers (wallet Sample.t_AA))
      /\ submitted (run_sendTransaction (Sample.env_ok "0x7a01")
                      Sample.t_AA Sample.d_AB)
         = [requestOf Sample.t_AA]).
Proof.
  split.
  - intros t. unfold orderedSignaturesOf.
    now rewrite orderSignatures_length, matchingPairs_length.
  - split; [split; reflexivity|].
    split; [right; now left|]. repeat split.
Qed.

(** ** C2 *)

Section Executable.

(** The external signature verifier: valid or invalid, for the operation
    hash of the proposal the signature belongs to. *)
Variable verify : Signature -> bool.

Lemma validSignaturesBy_all_valid (s : string) (sigs : list Signature) :
  Forall (fun sg => verify sg = true) sigs ->
  validSignaturesBy verify s sigs = signedBy s sigs.
Proof.
  unfold validSignaturesBy, signedBy.
  induction 1 as [|sg sigs Hv _ IH]; simpl; [reflexivity|].
  rewrite Hv, andb_true_r, IH. reflexivity.
Qed.

Lemma renderAction_execute (address0 : string) (t : TransactionWithSignatures) :
  renderAction address0 t = ExecuteTxn
  <-> Str.truthy (txHash t) = false /\ pendingSigners t = [].
Proof.
  unfold renderAction. destruct (Str.truthy (txHash t)).
  - split; [discriminate | intros [? _]; discriminate].
  - destruct (pendingSigners t) as [|p l]; cbn [length Nat.eqb].
    + split; auto.
    + destruct (Str.includes _ _); split; try discriminate;
        intros [_ ?]; discriminate.
Qed.

End Executable.

(** C2, as the code has it: for a proposal as the transactions endpoint
    delivers it, with no transaction hash recorded, at most one recorded
    signature per signer address and only valid signatures recorded, the
    proposal is executable (nobody pending, execute action offered) if and
    only if every signer has recorded exactly one valid signature. *)
Theorem executable_iff_all_signed_once
  (verify : Signature -> bool) (address0 : string)
  (t : TransactionWithSignatures) :
  fetched t ->
  Str.truthy (txHash t) = false ->
  one_signature_per_signer t ->
  Forall (fun sg => verify sg = true) (signatures t) ->
  executable address0 t <-> signed_exactly_once verify t.
Proof.
  intros Hf Hh Hone Hvalid. unfold executable, signed_exactly_once.
  rewrite renderAction_execute. unfold fetched in Hf. rewrite Hf.
  rewrite pendingSignersOf_nil. split.
  - intros [Hp _] s Hs. rewrite validSignaturesBy_all_valid by assumption.
    pose proof (signedBy_NoDup s (signatures t) Hone) as Hle.
    specialize (Hp s Hs).
    destruct (signedBy s (signatures t)) as [|a [|b l]]; simpl in *;
      [congruence | reflexivity | lia].
  - intros H.
    assert (forall s, In s (signers (wallet t)) ->
                      signedBy s (signatures t) <> []) as Hp.
    { intros s Hs E. specialize (H s Hs).
      rewrite validSignaturesBy_all_valid, E in H by assumption.
      discriminate. }
    auto.
Qed.

Lemma executable_iff_all_signed_once_witness :
  executable Sample.A Sample.t_BA
  /\ signed_exactly_once (fun _ => true) Sample.t_BA.
Proof.
  assert (executable Sample.A Sample.t_BA) as He by (split; reflexivity).
  split; [exact He|].
  apply (executable_iff_all_signed_once (fun _ => true) Sample.A Sample.t_BA).
  - reflexivity.
  - reflexivity.
  - unfold one_signature_per_signer. simpl.
    repeat constructor; simpl; intuition discriminate.
  - repeat constructor.
  - exact He.
Defined.

(** C2 as stated fails in three ways: a fully signed proposal whose hash is
    recorded is no longer offered for execution; a proposal whose only
    signer signed twice is executable; and a proposal is executable whatever
    the verifier says about its signatures, since no verifier is consulted. *)
Lemma executable_iff_needs_guards :
  (fetched Sample.t_done
   /\ signed_exactly_once (fun _ => true) Sample.t_done
   /\ ~ executable Sample.A Sample.t_done)
  /\ (fetched Sample.t_A_twice
      /\ executable Sample.A Sample.t_A_twice
      /\ ~ signed_exactly_once (fun _ => true) Sample.t_A_twice)
  /\ (fetched Sample.t_BA
      /\ executable Sample.A Sample.t_BA
      /\ ~ signed_exactly_once (fun _ => false) Sample.t_BA).
Proof.
  split; [|split].
  - split; [reflexivity|]. split.
    + intros s Hs. simpl in Hs. destruct Hs as [<-|[<-|[]]]; reflexivity.
    + intros [_ H]. discriminate H.
  - split; [reflexivity|]. split; [split; reflexivity|].
    intros H. specialize (H Sample.A (or_introl eq_refl)). discriminate H.
  - split; [reflexivity|]. split; [split; reflexivity|].
    intros H. specialize (H Sample.A (or_introl eq_refl)). discriminate H.
Qed.

(** ** C5 *)

(** C5, as the code has it: resubmission is prevented by the component
    only.  A proposal with a recorded (non-empty) transaction hash is
    rendered with the explorer link, never with the execute action;
    [sendTransaction] itself does not look at the recorded hash; and the
    persistence route accepts a hash for any stored wallet and proposal and
    stores it in place of whatever hash was there. *)
Theorem resubmission_guarded_by_component_only :
  (forall address0 t,
      Str.truthy (txHash t) = true ->
      renderAction address0 t = ViewOnEtherscan)
  /\ (forall env t d h,
         run_sendTransaction env (with_txHash h t) d
         = run_sendTransaction env t d)
  /\ (forall w b k wl i r h,
         walletId b = Some k -> wallets (db w) !! k = Some wl ->
         transactionId b = Some i -> transactions (db w) !! i = Some r ->
         body_txHash b = TxString h ->
         exists w',
           POST (Some b) w = (w', Ok (JsonTransaction (set_row_txHash (Some h) r)))
           /\ transactions (db w') !! i = Some (set_row_txHash (Some h) r)).
Proof.
  split; [|split].
  - intros address0 t H. unfold renderAction. now rewrite H.
  - reflexivity.
  - intros w b k wl i r h Hk Hwl Hi Hr Hh.
    rewrite (POST_updates w b k wl i r Hk Hwl Hi Hr) by (rewrite Hh; discriminate).
    rewrite Hh. eexists. split; [reflexivity|]. cbn. apply lookup_insert_eq.
Qed.

Lemma resubmission_guarded_by_component_only_witness :
  renderAction Sample.A Sample.t_done = ViewOnEtherscan
  /\ exists w',
       POST (Some (persistBody Sample.t_done (Some "0x7a02")))
         (initial Sample.d_done)
       = (w', Ok (JsonTransaction (Sample.row (Some "0x7a02"))))
       /\ transactions (db w') !! 7%Z = Some (Sample.row (Some "0x7a02")).
Proof.
  destruct resubmission_guarded_by_component_only as (Hr & _ & Hp).
  split; [now apply Hr|].
  apply (Hp (initial Sample.d_done)
            (persistBody Sample.t_done (Some "0x7a02"))
            1%Z (set_isDeployed true Sample.wallet_AB)
            7%Z (Sample.row (Some "0x7a01")) "0x7a02"); reflexivity.
Defined.

(** C5 as stated fails: a second submission for a proposal whose hash is
    already recorded is not rejected; it reaches the submitter, the
    persistence route answers with the updated row, and the stored hash is
    replaced by the new one. *)
Lemma second_submission_overwrites_hash :
  row_txHash <$> transactions Sample.d_done !! 7%Z = Some (Some "0x7a01")
  /\ submitted (run_sendTransaction (Sample.env_ok "0x7a02")
                  Sample.t_done Sample.d_done)
     = [requestOf Sample.t_done]
  /\ persisted (run_sendTransaction (Sample.env_ok "0x7a02")
                  Sample.t_done Sample.d_done)
     = [(persistBody Sample.t_done (Some "0x7a02"),
         JsonTransaction (Sample.row (Some "0x7a02")))]
  /\ row_txHash <$> transactions
         (db (run_sendTransaction (Sample.env_ok "0x7a02")
                Sample.t_done Sample.d_done)) !! 7%Z
     = Some (Some "0x7a02").
Proof. vm_compute. repeat split. Qed.

(** ** C6 *)

(** C6, as the code has it: a call of [sendTransaction] that issued no
    persistence request (it failed at the client initialisation, the
    quorum-length check or the execution submitter) leaves the database as
    it was, and so does a call whose request never reached the route.  A
    call that does not run to its end has either left the database as it
    was or has lost the answer of the route, and then the database is as
    the route left it.  The route always answers; when it answers with an
    error no transaction row was written, so no hash is recorded and the
    proposal stays executable, and the wallet table is either untouched or
    differs only by the named wallet having been marked deployed before the
    transaction update was refused. *)
Theorem failed_submit_records_no_hash :
  (forall env t d,
      requested (run_sendTransaction env t d) = [] ->
      db (run_sendTransaction env t d) = d)
  /\ (forall env t d,
         ~ sent (run_sendTransaction env t d) ->
         persisted (run_sendTransaction env t d) = []
         /\ (db (run_sendTransaction env t d) = d
             \/ exists h f,
                 clientInit env = None /\ quorum_met t = true
                 /\ executionSubmitter env (requestOf t) = inr h
                 /\ delivery env (persistBody t h) = ResponseLost f
                 /\ db (run_sendTransaction env t d)
                    = db (fst (POST (Some (persistBody t h)) (initial d)))))
  /\ (forall body w, exists w' j, POST body w = (w', Ok j))
  /\ (forall body w w' e,
         POST body w = (w', Ok (JsonError e)) ->
         transactions (db w') = transactions (db w)
         /\ (wallets (db w') = wallets (db w)
             \/ exists b k wl,
                 body = Some b /\ walletId b = Some k
                 /\ wallets (db w) !! k = Some wl
                 /\ update_refused b w
                 /\ wallets (db w')
                    = <[k := set_isDeployed true wl]> (wallets (db w)))).
Proof.
  split; [|split; [|split]].
  - intros env t d.
    destruct (run_sendTransaction_outcome env t d)
      as [f Hinit | Hinit Hq | f Hinit Hq Hs | h f Hinit Hq Hs Hd
         | h f w' j Hinit Hq Hs Hd Hp | h w' j Hinit Hq Hs Hd Hp];
      unfold requested; cbn [log db];
      rewrite ?flat_map_app; cbn [flat_map app]; intros H;
      try reflexivity; exfalso;
      apply app_eq_nil in H as [_ H]; discriminate H.
  - intros env t d Hns.
    exact (outcome_not_sent env t d _ (run_sendTransaction_outcome env t d) Hns).
  - intros body w. destruct (POST_cases body w) as (w' & j & H & _). eauto.
  - intros body w w' e H.
    destruct (POST_cases body w) as (w0 & j & H0 & Hcase).
    rewrite H in H0. injection H0 as <- <-.
    inversion Hcase as [c f Hb Hw Hj | c f b k wl Hb Hk Hwl Ht Hw Hj | ]; subst.
    + cbn. auto.
    + cbn. split; [reflexivity|]. right. exists b, k, wl. auto.
Qed.

Lemma failed_submit_records_no_hash_witness :
  db (run_sendTransaction Sample.env_rejecting Sample.t_BA Sample.d_AB)
  = Sample.d_AB
  /\ persisted (run_sendTransaction Sample.env_down Sample.t_BA Sample.d_AB) = []
  /\ transactions
       (db (fst (POST (Some (persistBody Sample.t_BA (Some "0x7a01")))
                   (initial Sample.d_wallet_only))))
     = transactions Sample.d_wallet_only.
Proof.
  destruct failed_submit_records_no_hash as (Hr & Hs & _ & Hp).
  split; [|split].
  - apply (Hr Sample.env_rejecting Sample.t_BA Sample.d_AB). reflexivity.
  - apply (Hs Sample.env_down Sample.t_BA Sample.d_AB).
    vm_compute. intuition discriminate.
  - apply (Hp (Some (persistBody Sample.t_BA (Some "0x7a01")))
              (initial Sample.d_wallet_only) _
              record_not_found).
    reflexivity.
Defined.

(** C6 as stated fails in two ways.  The persistence request for a stored
    wallet and a proposal that is not stored is answered with an error, and
    the wallet has been marked deployed by it all the same.  And when the
    answer of the route is lost, the call fails with the network error
    although the route has recorded the hash and marked the wallet. *)
Lemma failed_persistence_marks_wallet_deployed :
  ((exists e,
       snd (POST (Some (persistBody Sample.t_BA (Some "0x7a01")))
              (initial Sample.d_wallet_only))
       = Ok (JsonError e))
   /\ isDeployed <$> wallets Sample.d_wallet_only !! 1%Z = Some false
   /\ isDeployed <$>
        wallets (db (fst (POST (Some (persistBody Sample.t_BA (Some "0x7a01")))
                            (initial Sample.d_wallet_only)))) !! 1%Z
      = Some true)
  /\ (~ sent (run_sendTransaction (Sample.env_response_lost "0x7a01")
                Sample.t_BA Sample.d_AB)
      /\ alerts (run_sendTransaction (Sample.env_response_lost "0x7a01")
                   Sample.t_BA Sample.d_AB)
         = ["Failed to fetch"%string]
      /\ row_txHash <$> transactions Sample.d_AB !! 7%Z = Some None
      /\ row_txHash <$>
           transactions (db (run_sendTransaction
                               (Sample.env_response_lost "0x7a01")
                               Sample.t_BA Sample.d_AB)) !! 7%Z
         = Some (Some "0x7a01"%string)
      /\ isDeployed <$>
           wallets (db (run_sendTransaction
                          (Sample.env_response_lost "0x7a01")
                          Sample.t_BA Sample.d_AB)) !! 1%Z
         = Some true).
Proof.
  split.
  - split; [eexists; reflexivity|]. split; reflexivity.
  - split; [vm_compute; intuition discriminate|]. repeat split.
Qed.

(** ** C7 *)




(** ** C8 *)

Section Lookup.

Variable isAddress : string -> bool.

Lemma findFirst_some (a : string) (ws : gmap Z Wallet) (wl : Wallet) :
  option_map snd
    (List.find (fun kw => String.eqb (address (snd kw)) a) (map_to_list ws))
  = Some wl ->
  address wl = a /\ exists k, ws !! k = Some wl.
Proof.
  destruct (List.find _ _) as [[k wl']|] eqn:F; [|discriminate].
  intros [= <-]. apply find_some in F as [Hin Ha].
  apply String.eqb_eq in Ha. split; [exact Ha|]. exists k.
  apply elem_of_map_to_list, list_elem_of_In. exact Hin.
Qed.

Lemma findFirst_none (a : string) (ws : gmap Z Wallet) :
  option_map snd
    (List.find (fun kw => String.eqb (address (snd kw)) a) (map_to_list ws))
  = None ->
  forall k wl, ws !! k = Some wl -> address wl <> a.
Proof.
  destruct (List.find _ _) as [[k0 wl0]|] eqn:F; [discriminate|].
  intros _ k wl Hk Ha.
  apply elem_of_map_to_list, list_elem_of_In in Hk.
  pose proof (find_none _ _ F _ Hk) as Hf. simpl in Hf.
  apply String.eqb_neq in Hf. contradiction.
Qed.

Lemma GET_valid (req : NextRequest) (w : World) (c : ascii) (a : string) :
  searchParams_get "walletAddress" req = Some (String c a) ->
  isAddress (String c a) = true ->
  GET isAddress req w
  = (w, Ok (json_wallet
              (option_map snd
                 (List.find
                    (fun kw => String.eqb (address (snd kw)) (String c a))
                    (map_to_list (wallets (db w))))))).
Proof.
  intros Hget Hok. unfold GET, try_catch. rewrite Hget.
  cbn [falsy Str.truthy negb narrowed]. rewrite Hok. cbn [negb].
  unfold prisma_wallet_findFirst, bind, get_db, ret. reflexivity.
Qed.

Lemma GET_invalid (req : NextRequest) (w : World) :
  match searchParams_get "walletAddress" req with
  | None => True
  | Some EmptyString => True
  | Some a => isAddress a = false
  end ->
  exists m,
    GET isAddress req w
    = (logged (ServerConsoleError (Error m)) w, Ok (JsonError (Error m))).
Proof.
  intros H. unfold GET, try_catch.
  destruct (searchParams_get "walletAddress" req) as [[|c a]|].
  - eexists. reflexivity.
  - cbn [falsy Str.truthy negb narrowed]. rewrite H. eexists. reflexivity.
  - eexists. reflexivity.
Qed.

End Lookup.

(** C8: the wallet lookup always answers and changes nothing in the
    database.  For a request whose [walletAddress] parameter is a valid
    address, the answer is a stored wallet with exactly that address when
    there is one and [null] when there is none; a request whose parameter is
    missing, empty or not a valid address is answered with an error
    object. *)
Theorem GET_wallet_lookup
  (isAddress : string -> bool) (req : NextRequest) (w : World) :
  (exists w' j, GET isAddress req w = (w', Ok j) /\ db w' = db w)
  /\ (forall a,
         searchParams_get "walletAddress" req = Some a ->
         a <> EmptyString -> isAddress a = true ->
         ((exists k wl, wallets (db w) !! k = Some wl /\ address wl = a) ->
          exists wl,
            snd (GET isAddress req w) = Ok (JsonWallet wl)
            /\ address wl = a
            /\ exists k, wallets (db w) !! k = Some wl)
         /\ ((forall k wl, wallets (db w) !! k = Some wl -> address wl <> a) ->
             snd (GET isAddress req w) = Ok JsonNull))
  /\ ((searchParams_get "walletAddress" req = None
       \/ searchParams_get "walletAddress" req = Some EmptyString
       \/ exists a, searchParams_get "walletAddress" req = Some a
                    /\ isAddress a = false) ->
      exists e, snd (GET isAddress req w) = Ok (JsonError e)).
Proof.
  pose proof (GET_valid isAddress req w) as Hvalid.
  split; [|split].
  - destruct (searchParams_get "walletAddress" req) as [[|c a]|] eqn:Hget.
    + destruct (GET_invalid isAddress req w) as [m Hm]; [now rewrite Hget|].
      rewrite Hm. eauto.
    + destruct (isAddress (String c a)) eqn:Hok.
      * rewrite (Hvalid c a eq_refl Hok). eauto.
      * destruct (GET_invalid isAddress req w) as [m Hm]; [now rewrite Hget|].
        rewrite Hm. eauto.
    + destruct (GET_invalid isAddress req w) as [m Hm]; [now rewrite Hget|].
      rewrite Hm. eauto.
  - intros a Hget Hne Hok. destruct a as [|c a]; [congruence|].
    rewrite (Hvalid c a Hget Hok). cbn [snd].
    destruct (option_map snd _) as [wl|] eqn:F; cbn [json_wallet].
    + apply findFirst_some in F as [Ha Hk]. split.
      * intros _. exists wl. auto.
      * intros Hnone. destruct Hk as [k Hk]. now apply Hnone in Hk.
    + split.
      * intros (k & wl & Hk & Ha).
        exfalso. exact (findFirst_none _ _ F k wl Hk Ha).
      * reflexivity.
  - intros H.
    destruct (GET_invalid isAddress req w) as [m Hm].
    + destruct H as [-> | [-> | (a & -> & Ha)]]; try exact I.
      destruct a; [exact I | exact Ha].
    + rewrite Hm. eauto.
Qed.

Lemma GET_wallet_lookup_witness :
  snd (GET (fun _ => true)
         {| searchParams := [("walletAddress", "0x5afe")] |}
         (initial Sample.d_AB))
  = Ok (JsonWallet Sample.wallet_AB)
  /\ snd (GET (fun _ => true)
            {| searchParams := [("walletAddress", "0x5aff")] |}
            (initial Sample.d_AB))
     = Ok JsonNull
  /\ exists e,
       snd (GET (fun _ => false)
              {| searchParams := [("walletAddress", "0x5afe")] |}
              (initial Sample.d_AB))
       = Ok (JsonError e).
Proof.
  split; [|split].
  - destruct (GET_wallet_lookup (fun _ => true)
                {| searchParams := [("walletAddress", "0x5afe")] |}
                (initial Sample.d_AB)) as (_ & H & _).
    destruct (H "0x5afe") as [Hfound _];
      [reflexivity | discriminate | reflexivity |].
    destruct Hfound as (wl & Hj & _).
    + exists 1%Z, Sample.wallet_AB. split; reflexivity.
    + reflexivity.
  - destruct (GET_wallet_lookup (fun _ => true)
                {| searchParams := [("walletAddress", "0x5aff")] |}
                (initial Sample.d_AB)) as (_ & H & _).
    destruct (H "0x5aff") as [_ Hnone];
      [reflexivity | discriminate | reflexivity |].
    apply Hnone. intros k wl Hk.
    destruct (decide (k = 1%Z)) as [->|Hk1].
    + cbn in Hk. injection Hk as <-. discriminate.
    + cbn in Hk. rewrite lookup_singleton_ne in Hk by congruence. discriminate.
  - destruct (GET_wallet_lookup (fun _ => false)
                {| searchParams := [("walletAddress", "0x5afe")] |}
                (initial Sample.d_AB)) as (_ & _ & H).
    apply H. right. right. exists "0x5afe". split; reflexivity.
Defined.

(** ** C9 *)

Section LetterCase.

Lemma renderAction_sign (address0 : string) (t : TransactionWithSignatures) :
  Str.truthy (txHash t) = false -> pendingSigners t <> [] ->
  renderAction address0 t = SignTxn
  <-> In (Str.toLowerCase address0) (pendingSigners t).
Proof.
  intros Hh Hp. unfold renderAction. rewrite Hh.
  destruct (pendingSigners t) as [|p l] eqn:E; [congruence|].
  cbn [length Nat.eqb]. unfold Str.includes.
  destruct (existsb _ (p :: l)) eqn:X.
  - split; [intros _ | reflexivity].
    apply existsb_exists in X as (x & Hx & Heq).
    apply String.eqb_eq in Heq. now subst x.
  - split; [discriminate|]. intros Hin. exfalso.
    assert (existsb (String.eqb (Str.toLowerCase address0)) (p :: l) = true)
      as Y.
    { apply existsb_exists. exists (Str.toLowerCase address0).
      split; [exact Hin | apply String.eqb_refl]. }
    congruence.
Qed.

End LetterCase.

(** C9, as the code has it: the ordering step takes a signature for a
    signer exactly when the two address strings are equal, while the
    sign action is offered by looking up the lower-cased connected address
    among the pending signers.  Consequently, for a proposal with at most
    one signature per signer and no signer listed twice (addresses compared
    without regard to letter case), a recorded signature whose address
    differs only in letter case from a stored signer entry is left out of
    the ordered output, that signer's place stays empty, fewer signatures
    than signers are assembled, and the call hands nothing to the submitter
    and fails with the incomplete-quorum error once the client
    initialised. *)
Theorem case_mismatch_fails_quorum :
  (forall x t,
      In x (orderedSignaturesOf t) <->
      exists s sg, In s (signers (wallet t)) /\ In sg (signatures t)
                   /\ signerAddress sg = s /\ signature sg = x)
  /\ (forall address0 t,
         Str.truthy (txHash t) = false -> pendingSigners t <> [] ->
         renderAction address0 t = SignTxn
         <-> In (Str.toLowerCase address0) (pendingSigners t))
  /\ (forall t s sg,
         List.NoDup (map Str.toLowerCase (signers (wallet t))) ->
         List.NoDup (map (fun g => Str.toLowerCase (signerAddress g))
                         (signatures t)) ->
         In s (signers (wallet t)) ->
         In sg (signatures t) ->
         Str.toLowerCase (signerAddress sg) = Str.toLowerCase s ->
         signerAddress sg <> s ->
         (forall s', In s' (signers (wallet t)) ->
                     ~ In sg (signedBy s' (signatures t)))
         /\ signedBy s (signatures t) = []
         /\ length (orderedSignaturesOf t) < length (signers (wallet t))
         /\ forall env d,
             submitted (run_sendTransaction env t d) = []
             /\ (clientInit env = None ->
                 failures (run_sendTransaction env t d) = [incomplete_quorum])).
Proof.
  split; [|split].
  - intros x t. apply In_orderSignatures.
  - intros address0 t. apply renderAction_sign.
  - intros t s sg Hss Hsigs Hs Hsg Hlow Hne.
    assert (List.NoDup (map signerAddress (signatures t))) as Hone.
    { rewrite <- (map_map signerAddress Str.toLowerCase) in Hsigs.
      exact (NoDup_map_inv _ _ Hsigs). }
    assert (signedBy s (signatures t) = []) as Hempty.
    { destruct (signedBy s (signatures t)) as [|g l] eqn:E; [reflexivity|].
      exfalso.
      assert (In g (signedBy s (signatures t))) as Hg
          by (rewrite E; now left).
      apply In_signedBy in Hg as [Hg Ha].
      assert (g = sg) as ->.
      { apply (NoDup_map_In_inj
                 (fun g0 => Str.toLowerCase (signerAddress g0))
                 (signatures t)); auto.
        cbn beta. now rewrite Ha, Hlow. }
      contradiction. }
    assert (length (orderedSignaturesOf t) < length (signers (wallet t)))
      as Hlt.
    { unfold orderedSignaturesOf. rewrite orderSignatures_length.
      apply (list_sum_lt_length _ _ s); [|exact Hs|now rewrite Hempty].
      intros y. now apply signedBy_NoDup. }
    split; [|split; [exact Hempty | split; [exact Hlt|]]].
    + intros s' Hs' Hin. apply In_signedBy in Hin as [_ Ha].
      apply Hne.
      rewrite Ha. apply (NoDup_map_In_inj Str.toLowerCase (signers (wallet t)));
        auto. now rewrite <- Hlow, Ha.
    + intros env d.
      assert (quorum_met t = false) as Hq by (apply quorum_met_false; lia).
      destruct (outcome_quorum_failed env t d _
                  (run_sendTransaction_outcome env t d) Hq)
        as (Hsub & _ & _ & _ & _ & Hfail).
      split; [exact Hsub|]. intros Hinit. now apply Hfail.
Qed.

Lemma case_mismatch_fails_quorum_witness :
  signedBy "0xAB12" (signatures Sample.t_lower_only) = []
  /\ length (orderedSignaturesOf Sample.t_lower_only)
     < length (signers (wallet Sample.t_lower_only))
  /\ failures (run_sendTransaction (Sample.env_ok "0x7a01")
                 Sample.t_lower_only Sample.d_AB)
     = [incomplete_quorum].
Proof.
  destruct case_mismatch_fails_quorum as (_ & _ & H).
  destruct (H Sample.t_lower_only "0xAB12"%string Sample.sig_lower)
    as (_ & He & Hl & Hr).
  - simpl. repeat constructor. simpl. tauto.
  - simpl. repeat constructor. simpl. tauto.
  - simpl. now left.
  - simpl. now left.
  - reflexivity.
  - discriminate.
  - split; [exact He|]. split; [exact Hl|].
    now apply (Hr (Sample.env_ok "0x7a01") Sample.d_AB).
Defined.

(** C9 as stated fails when the same signer has, besides the signature
    under the differing spelling, one under the stored spelling: the
    lower-case one is left out, and the quorum-length check passes.  And
    when both spellings are listed as signers, the lower-case signature is
    not left out. *)
Lemma case_mismatch_with_exact_signature_passes :
  orderedSignaturesOf Sample.t_listed_twice
  = [signature Sample.sig_stored; signature Sample.sig_lower]
  /\ In Sample.sig_lower (signatures Sample.t_both_spellings)
  /\ In "0xAB12"%string (signers (wallet Sample.t_both_spellings))
  /\ Str.toLowerCase (signerAddress Sample.sig_lower) = Str.toLowerCase "0xAB12"
  /\ signerAddress Sample.sig_lower <> "0xAB12"%string
  /\ orderedSignaturesOf Sample.t_both_spellings = [signature Sample.sig_stored]
  /\ length (orderedSignaturesOf Sample.t_both_spellings)
     = length (signers (wallet Sample.t_both_spellings))
  /\ submitted (run_sendTransaction (Sample.env_ok "0x7a01")
                  Sample.t_both_spellings Sample.d_AB)
     = [requestOf Sample.t_both_spellings].
Proof.
  split; [reflexivity|].
  split; [now left|]. split; [now left|]. split; [reflexivity|].
  split; [discriminate|]. repeat split.
Qed.

(** * Further properties of the code *)

(** ** The ordered signatures as a rearrangement *)

Section Rearrangement.

Lemma filter_disjoint_or {A : Type} (p q : A -> bool) (l : list A) :
  (forall x, p x = true -> q x = false) ->
  Permutation (List.filter (fun x => p x || q x) l)
              (List.filter p l ++ List.filter q l).
Proof.
  intros Hd. induction l as [|a l IH]; simpl; [constructor|].
  destruct (p a) eqn:Hp; simpl.
  - rewrite (Hd a Hp). now constructor.
  - destruct (q a); [|exact IH].
    now apply Permutation_cons_app.
Qed.

Lemma signedBySigners_cons (s : string) (ss : list string)
  (sigs : list Signature) :
  ~ In s ss ->
  Permutation (signedBySigners (s :: ss) sigs)
              (signedBy s sigs ++ signedBySigners ss sigs).
Proof.
  intros Hs. unfold signedBySigners, signedBy. simpl.
  apply filter_disjoint_or. intros sg Hsg.
  apply String.eqb_eq in Hsg.
  destruct (existsb _ ss) eqn:E; [|reflexivity]. exfalso.
  apply existsb_exists in E as (x & Hx & Heq).
  apply String.eqb_eq in Heq. apply Hs. now rewrite <- Hsg, Heq.
Qed.

Lemma orderSignatures_map (ss : list string) (sigs : list Signature) :
  orderSignatures ss sigs
  = map signature (flat_map (fun s => signedBy s sigs) ss).
Proof.
  rewrite orderSignatures_flat_map.
  induction ss as [|s ss IH]; simpl; [reflexivity|].
  now rewrite map_app, IH.
Qed.

End Rearrangement.

(** X1: when no signer address is listed twice, the ordered output is a
    rearrangement of the signatures recorded under the signers' addresses:
    none of them is lost or repeated, and a signature recorded under an
    address that is no signer of the wallet is dropped. *)
Theorem ordered_signatures_rearrange_signers_signatures
  (ss : list string) (sigs : list Signature) :
  List.NoDup ss ->
  Permutation (orderSignatures ss sigs)
              (map signature (signedBySigners ss sigs)).
Proof.
  intros Hnd. rewrite orderSignatures_map. apply Permutation_map.
  induction Hnd as [|s ss Hs Hnd IH]; simpl.
  - unfold signedBySigners. simpl.
    induction sigs as [|sg sigs IHs]; simpl; [constructor | exact IHs].
  - symmetry. etransitivity; [now apply signedBySigners_cons|].
    apply Permutation_app_head. now symmetry.
Qed.

Lemma ordered_signatures_rearrange_signers_signatures_witness :
  Permutation
    (orderSignatures [Sample.A; Sample.B] [Sample.sigB; Sample.sigA'; Sample.sigA])
    (map signature [Sample.sigB; Sample.sigA'; Sample.sigA]).
Proof.
  apply (ordered_signatures_rearrange_signers_signatures
           [Sample.A; Sample.B] [Sample.sigB; Sample.sigA'; Sample.sigA]).
  repeat constructor; simpl; intuition discriminate.
Defined.

(** X2: with no recorded signature nothing is assembled, so the
    quorum-length check passes exactly for a wallet without signers; and for
    a wallet without signers it passes whatever was recorded, and an
    operation carrying no signature is handed to the submitter once the
    client initialised. *)
Theorem quorum_check_on_empty_lists (t : TransactionWithSignatures) :
  (signatures t = [] ->
   orderedSignaturesOf t = []
   /\ (quorum_met t = true <-> signers (wallet t) = []))
  /\ (signers (wallet t) = [] ->
      orderedSignaturesOf t = []
      /\ forall env d,
          clientInit env = None ->
          submitted (run_sendTransaction env t d) = [requestOf t]
          /\ req_signatures (requestOf t) = []).
Proof.
  split.
  - intros Hs.
    assert (orderedSignaturesOf t = []) as He.
    { unfold orderedSignaturesOf. rewrite Hs, orderSignatures_flat_map.
      induction (signers (wallet t)) as [|s ss IH]; simpl; [reflexivity|exact IH]. }
    split; [exact He|]. rewrite quorum_met_true, He. simpl.
    destruct (signers (wallet t)); simpl; split; congruence.
  - intros Hs.
    assert (orderedSignaturesOf t = []) as He
        by (unfold orderedSignaturesOf; now rewrite Hs).
    split; [exact He|]. intros env d Hinit.
    assert (quorum_met t = true) as Hq
        by (apply quorum_met_true; now rewrite He, Hs).
    split; [|exact He].
    exact (outcome_submitted_once env t d _
             (run_sendTransaction_outcome env t d) Hinit Hq).
Qed.

Lemma quorum_check_on_empty_lists_witness :
  quorum_met (Sample.proposal Sample.wallet_AB [] None) = false
  /\ submitted
       (run_sendTransaction (Sample.env_ok "0x7a01")
          (Sample.proposal
             {| wallet_id := 1%Z; address := "0x5afe"; signers := [];
                isDeployed := false |}
             [Sample.sigA] None)
          Sample.d_AB)
     = [requestOf
          (Sample.proposal
             {| wallet_id := 1%Z; address := "0x5afe"; signers := [];
                isDeployed := false |}
             [Sample.sigA] None)].
Proof.
  split.
  - destruct (quorum_check_on_empty_lists
                (Sample.proposal Sample.wallet_AB [] None)) as [H _].
    destruct (H eq_refl) as [_ Hq].
    destruct (quorum_met (Sample.proposal Sample.wallet_AB [] None)) eqn:E;
      [|reflexivity].
    destruct Hq as [Hq _]. specialize (Hq eq_refl). discriminate Hq.
  - destruct (quorum_check_on_empty_lists
                (Sample.proposal
                   {| wallet_id := 1%Z; address := "0x5afe"; signers := [];
                      isDeployed := false |}
                   [Sample.sigA] None)) as [_ H].
    destruct (H eq_refl) as [_ Hr].
    now apply (Hr (Sample.env_ok "0x7a01") Sample.d_AB).
Defined.

(** ** The persistence route as an operation on the database *)

Section PersistenceAlgebra.

Lemma updated_row_twice (h : TxHashField) (r : TransactionRow) :
  updated_row h (updated_row h r) = updated_row h r.
Proof. now destruct h. Qed.

Lemma POST_accepted_again (w : World) (b : UpdateBody) (k i : Z)
  (wl : Wallet) (r : TransactionRow) :
  walletId b = Some k -> wallets (db w) !! k = Some wl ->
  transactionId b = Some i -> transactions (db w) !! i = Some r ->
  body_txHash b <> TxInvalid ->
  db (fst (POST (Some b) (fst (POST (Some b) w))))
  = db (fst (POST (Some b) w))
  /\ snd (POST (Some b) (fst (POST (Some b) w))) = snd (POST (Some b) w).
Proof.
  intros Hk Hwl Hi Hr Hv.
  rewrite (POST_updates w b k wl i r Hk Hwl Hi Hr Hv). cbn [fst snd].
  rewrite (POST_updates _ b k (set_isDeployed true wl) i
             (updated_row (body_txHash b) r) Hk);
    [|cbn; apply lookup_insert_eq | exact Hi | cbn; apply lookup_insert_eq
     | exact Hv].
  cbn [fst snd db wallets transactions].
  rewrite !insert_insert_eq, updated_row_twice. split; reflexivity.
Qed.

End PersistenceAlgebra.

Lemma POST_twice (body : option UpdateBody) (w : World) :
  db (fst (POST body (fst (POST body w)))) = db (fst (POST body w))
  /\ snd (POST body (fst (POST body w))) = snd (POST body w).
Proof.
  destruct body as [b|]; [|split; reflexivity].
  destruct (walletId b) as [k|] eqn:Hk.
  2:{ cbv beta iota zeta delta
        [POST try_catch bind req_json prisma_wallet_update_isDeployed
         throw ret emit].
      rewrite Hk. split; reflexivity. }
  destruct (wallets (db w) !! k) as [wl|] eqn:Hwl.
  2:{ cbv beta iota zeta delta
        [POST try_catch bind req_json prisma_wallet_update_isDeployed
         get_db throw ret emit].
      rewrite Hk. cbn [db log fst snd]. rewrite Hwl. cbn [db log fst snd].
      rewrite Hwl. split; reflexivity. }
  destruct (transactionId b) as [i|] eqn:Hi.
  - destruct (transactions (db w) !! i) as [r|] eqn:Hr;
      destruct (body_txHash b) eqn:Hh;
      try (apply (POST_accepted_again w b k i wl r); auto;
           rewrite Hh; discriminate);
      cbv beta iota zeta delta
        [POST try_catch bind req_json prisma_wallet_update_isDeployed
         prisma_transaction_update_txHash get_db put_db throw ret emit];
      rewrite Hk, Hi, Hh; cbn [db log wallets transactions fst snd];
      rewrite Hwl; cbn [db log wallets transactions fst snd];
      rewrite ?Hr; cbn [db log wallets transactions fst snd];
      rewrite lookup_insert_eq; cbn [db log wallets transactions fst snd];
      rewrite ?Hr; cbn [db log wallets transactions fst snd];
      rewrite insert_insert_eq; split; reflexivity.
  - cbv beta iota zeta delta
      [POST try_catch bind req_json prisma_wallet_update_isDeployed
       prisma_transaction_update_txHash get_db put_db throw ret emit].
    rewrite Hk, Hi. cbn [db log wallets transactions fst snd].
    rewrite Hwl. cbn [db log wallets transactions fst snd].
    rewrite lookup_insert_eq. cbn [db log wallets transactions fst snd].
    rewrite insert_insert_eq. split; reflexivity.
Qed.

(** X3: the persistence route is idempotent on the database: handling the
    same request a second time gives the same answer and leaves the
    database exactly as the first handling left it. *)
Theorem POST_idempotent (body : option UpdateBody) (w : World) :
  db (fst (POST body (fst (POST body w)))) = db (fst (POST body w))
  /\ snd (POST body (fst (POST body w))) = snd (POST body w).
Proof. exact (POST_twice body w). Qed.

Section PersistenceFrame.




(** The two tables after the route ran, in terms of the tables before. *)
Lemma POST_tables (body : option UpdateBody) (w : World) :
  (wallets (db (fst (POST body w))) = wallets (db w)
   \/ exists b k wl,
       body = Some b /\ walletId b = Some k /\ wallets (db w) !! k = Some wl
       /\ wallets (db (fst (POST body w)))
          = <[k := set_isDeployed true wl]> (wallets (db w)))
  /\ (transactions (db (fst (POST body w))) = transactions (db w)
      \/ exists b i r,
          body = Some b /\ transactionId b = Some i
          /\ transactions (db w) !! i = Some r
          /\ transactions (db (fst (POST body w)))
             = <[i := updated_row (body_txHash b) r]> (transactions (db w))).
Proof.
  destruct (POST_cases body w) as (w' & j & Hp & Hcase). rewrite Hp. cbn [fst].
  destruct Hcase as [c f Hb | c f b k wl Hb Hk Hwl Ht
                    | b k wl i r Hb Hk Hwl Hi Hr Hv];
    cbn.
  - split; now left.
  - split; [right; now exists b, k, wl | now left].
  - split; [right; now exists b, k, wl | right; now exists b, i, r].
Qed.

End PersistenceFrame.





(** ** More on sendTransaction *)

Section SubmissionEdges.

Implicit Types (env : Env) (t : TransactionWithSignatures) (d : Db) (w : World).

Lemma caught_alerts (e : Exn) :
  flat_map (fun ev => match ev with Alert m => [m] | _ => [] end) (caught e)
  = if instanceofError e then [message e] else [].
Proof. unfold caught. now destruct (instanceofError e). Qed.

Ltac observe_all :=
  unfold sent, submitted, persisted, requested, failures, alerts, logged,
    with_wallets in *;
  cbn [db log app flat_map] in *;
  rewrite ?flat_map_app in *;
  cbn [db log app flat_map] in *;
  rewrite ?caught_submitted, ?caught_persisted, ?caught_requested,
    ?caught_failures, ?caught_alerts, ?app_nil_r in *;
  cbn [app] in *.

Ltac not_reload H :=
  repeat (apply in_app_or in H; destruct H as [H|H]);
  unfold caught in H; cbn [In app] in H;
  repeat match type of H with
         | context [if ?c then _ else _] => destruct c
         end;
  cbn [In] in H; intuition discriminate.

Lemma outcome_shape env t d w :
  SendOutcome env t d w ->
  (sent w <-> clientInit env = None /\ quorum_met t = true
              /\ exists h, executionSubmitter env (requestOf t) = inr h
                           /\ delivery env (persistBody t h) = Delivered)
  /\ length (submitted w) <= 1
  /\ length (requested w) <= 1
  /\ (requested w <> [] -> submitted w = [requestOf t])
  /\ (persisted w <> [] -> sent w).
Proof.
  intros Hout.
  assert (sent w <-> clientInit env = None /\ quorum_met t = true
                     /\ exists h, executionSubmitter env (requestOf t) = inr h
                                  /\ delivery env (persistBody t h) = Delivered)
    as Hsent.
  { destruct Hout as [f Hinit | Hinit Hq | f Hinit Hq Hs | h f Hinit Hq Hs Hd
                     | h f w' j Hinit Hq Hs Hd Hp | h w' j Hinit Hq Hs Hd Hp];
      (split;
       [ intros H | intros (Hi' & Hq' & h' & Hs' & Hd') ]);
      try congruence;
      try (exfalso; unfold sent in H; cbn [log] in H;
           try (destruct Hp; unfold logged, with_wallets in H; cbn [log] in H);
           not_reload H).
    - eauto 10.
    - unfold sent. cbn [log]. apply in_or_app. right. simpl. auto. }
  split; [exact Hsent|].
  destruct Hout as [f Hinit | Hinit Hq | f Hinit Hq Hs | h f Hinit Hq Hs Hd
                   | h f w' j Hinit Hq Hs Hd Hp | h w' j Hinit Hq Hs Hd Hp];
    try destruct Hp; observe_all;
    repeat split; intros; try (cbn; lia); try congruence; try reflexivity.
  all: cbn [In]; auto 10.
Qed.

Lemma run_alerts env t d :
  ~ sent (run_sendTransaction env t d) ->
  exists e, failures (run_sendTransaction env t d) = [e]
            /\ alerts (run_sendTransaction env t d)
               = if instanceofError e then [message e] else [].
Proof.
  intros Hns. revert Hns.
  destruct (run_sendTransaction_outcome env t d)
    as [f Hinit | Hinit Hq | f Hinit Hq Hs | h f Hinit Hq Hs Hd
       | h f w' j Hinit Hq Hs Hd Hp | h w' j Hinit Hq Hs Hd Hp]; intros Hns.
  - exists (Rejection Bundler f). observe_all. split; reflexivity.
  - exists incomplete_quorum. split; reflexivity.
  - exists (Rejection Bundler f). observe_all. split; reflexivity.
  - exists (Rejection Browser f). observe_all. split; reflexivity.
  - exists (Rejection Browser f). destruct Hp; observe_all; split; reflexivity.
  - exfalso. apply Hns. unfold sent. cbn [log].
    apply in_or_app. right. simpl. auto.
Qed.

Lemma run_sent_alerts env t d h :
  clientInit env = None -> quorum_met t = true ->
  executionSubmitter env (requestOf t) = inr h ->
  delivery env (persistBody t h) = Delivered ->
  sent (run_sendTransaction env t d)
  /\ alerts (run_sendTransaction env t d) = ["Transaction sent successfully"%string]
  /\ (transactions d !! tx_id t = None ->
      transactions (db (run_sendTransaction env t d)) = transactions d
      /\ exists e,
          persisted (run_sendTransaction env t d)
          = [(persistBody t h, JsonError e)]).
Proof.
  intros Hinit Hq Hs Hd.
  rewrite run_sendTransaction_eq, Hinit, Hq. cbn [negb]. rewrite Hs, Hd.
  destruct (POST_cases (Some (persistBody t h))
              {| db := d; log := [ClientInit; SendUserOperation (requestOf t)] |})
    as (w' & j & -> & Hcase).
  destruct Hcase as [c f Hb | c f b k wl Hb Hk Hwl Ht
                    | b k wl i r Hb Hk Hwl Hi Hr Hv];
    unfold sent, alerts, persisted, logged, with_wallets; cbn.
  - split; [auto 10|]. split; [reflexivity|]. intros _. split; eauto.
  - split; [auto 10|]. split; [reflexivity|]. intros _. split; eauto.
  - split; [auto 10|]. split; [reflexivity|]. intros Hnone.
    injection Hb as <-. cbn in Hi. injection Hi as <-. cbn in Hr. congruence.
Qed.

End SubmissionEdges.



(** X7: once the submitter has returned and the persistence request has
    been delivered and answered, the call reports success whatever the
    answer is.  In particular, when the proposal is not stored, the route
    answers with an error, the transaction table is unchanged and the hash
    is recorded nowhere, yet the success alert is the only alert shown. *)
Theorem success_reported_whatever_persistence_answers
  (env : Env) (t : TransactionWithSignatures) (d : Db) (h : option string) :
  clientInit env = None ->
  length (orderedSignaturesOf t) = length (signers (wallet t)) ->
  executionSubmitter env (requestOf t) = inr h ->
  delivery env (persistBody t h) = Delivered ->
  sent (run_sendTransaction env t d)
  /\ alerts (run_sendTransaction env t d) = ["Transaction sent successfully"%string]
  /\ (transactions d !! tx_id t = None ->
      transactions (db (run_sendTransaction env t d)) = transactions d
      /\ exists e,
          persisted (run_sendTransaction env t d)
          = [(persistBody t h, JsonError e)]).
Proof.
  intros Hinit Hq Hs Hd. apply quorum_met_true in Hq.
  now apply run_sent_alerts.
Qed.

Lemma success_reported_whatever_persistence_answers_witness :
  alerts (run_sendTransaction (Sample.env_ok "0x7a01") Sample.t_BA
            Sample.d_wallet_only)
  = ["Transaction sent successfully"%string]
  /\ transactions
       (db (run_sendTransaction (Sample.env_ok "0x7a01") Sample.t_BA
              Sample.d_wallet_only))
     = transactions Sample.d_wallet_only.
Proof.
  destruct (success_reported_whatever_persistence_answers
              (Sample.env_ok "0x7a01") Sample.t_BA Sample.d_wallet_only
              (Some "0x7a01"%string))
    as (_ & Ha & Hn); try reflexivity.
  split; [exact Ha|]. now apply Hn.
Defined.

(** X8: a call that does not run to its end logs exactly one caught value
    and shows at most one alert: the message of the caught value when that
    value is an [Error] instance, and no alert at all when a collaborator
    rejected with something else. *)
Theorem failure_alerted_only_for_error_instances
  (env : Env) (t : TransactionWithSignatures) (d : Db) :
  ~ sent (run_sendTransaction env t d) ->
  exists e,
    failures (run_sendTransaction env t d) = [e]
    /\ alerts (run_sendTransaction env t d)
       = if instanceofError e then [message e] else [].
Proof. apply run_alerts. Qed.

Lemma failure_alerted_only_for_error_instances_witness :
  exists e,
    failures (run_sendTransaction Sample.env_down_silently
                Sample.t_BA Sample.d_AB) = [e]
    /\ alerts (run_sendTransaction Sample.env_down_silently
                 Sample.t_BA Sample.d_AB)
       = if instanceofError e then [message e] else [].
Proof.
  apply (failure_alerted_only_for_error_instances
           Sample.env_down_silently Sample.t_BA Sample.d_AB).
  vm_compute. intuition discriminate.
Defined.

(** X9: a call hands at most one package to the submitter and issues at
    most one persistence request, never issues a persistence request
    without having handed the proposal's package to the submitter first,
    and receives an answer of the route only in a run that reaches its end;
    it runs to its end exactly when the client initialised, the
    quorum-length check passed, the submitter returned, and the persistence
    request was delivered and answered. *)
Theorem at_most_one_submission_and_persistence
  (env : Env) (t : TransactionWithSignatures) (d : Db) :
  (sent (run_sendTransaction env t d)
   <-> clientInit env = None
       /\ length (orderedSignaturesOf t) = length (signers (wallet t))
       /\ exists h, executionSubmitter env (requestOf t) = inr h
                    /\ delivery env (persistBody t h) = Delivered)
  /\ length (submitted (run_sendTransaction env t d)) <= 1
  /\ length (requested (run_sendTransaction env t d)) <= 1
  /\ (requested (run_sendTransaction env t d) <> [] ->
      submitted (run_sendTransaction env t d) = [requestOf t])
  /\ (persisted (run_sendTransaction env t d) <> [] ->
      sent (run_sendTransaction env t d)).
Proof.
  rewrite <- quorum_met_true.
  exact (outcome_shape env t d _ (run_sendTransaction_outcome env t d)).
Qed.

Lemma at_most_one_submission_and_persistence_witness :
  sent (run_sendTransaction (Sample.env_ok "0x7a01") Sample.t_BA Sample.d_AB)
  /\ submitted (run_sendTransaction (Sample.env_ok "0x7a01") Sample.t_BA Sample.d_AB)
     = [requestOf Sample.t_BA].
Proof.
  destruct (at_most_one_submission_and_persistence
              (Sample.env_ok "0x7a01") Sample.t_BA Sample.d_AB)
    as (Hs & _ & _ & Hp & _).
  split.
  - apply Hs. split; [reflexivity|]. split; [reflexivity|].
    exists (Some "0x7a01"%string). split; reflexivity.
  - apply Hp. vm_compute. discriminate.
Defined.

(** ** The two routes together *)

(** X10: marking and looking up compose.  When exactly one stored wallet
    has the (valid) address asked for and a persistence request names that
    wallet, then, whether the request was accepted or rejected at the
    transaction update, the lookup afterwards returns that wallet with the
    deployed flag set and everything else as stored. *)
Theorem GET_after_POST
  (isAddress : string -> bool) (req : NextRequest) (body : UpdateBody)
  (w : World) (k : Z) (wl : Wallet) :
  walletId body = Some k ->
  wallets (db w) !! k = Some wl ->
  searchParams_get "walletAddress" req = Some (address wl) ->
  address wl <> EmptyString ->
  isAddress (address wl) = true ->
  (forall k' wl', wallets (db w) !! k' = Some wl' ->
                  address wl' = address wl -> k' = k) ->
  snd (GET isAddress req (fst (POST (Some body) w)))
  = Ok (JsonWallet (set_isDeployed true wl)).
Proof.
  intros Hk Hwl Hget Hne Hok Huniq.
  destruct (POST_tables (Some body) w) as [Hws _].
  assert (wallets (db (fst (POST (Some body) w)))
          = <[k := set_isDeployed true wl]> (wallets (db w))) as Hafter.
  { destruct (POST_cases (Some body) w) as (w' & j & Hp & Hcase).
    rewrite Hp. cbn [fst].
    destruct Hcase as [c f Hb | c f b k0 wl0 Hb Hk0 Hwl0 Ht
                      | b k0 wl0 i r Hb Hk0 Hwl0 Hi Hr].
    - rewrite Hk, Hwl in Hb. discriminate.
    - injection Hb as <-. rewrite Hk in Hk0. injection Hk0 as <-.
      rewrite Hwl in Hwl0. injection Hwl0 as <-. reflexivity.
    - injection Hb as <-. rewrite Hk in Hk0. injection Hk0 as <-.
      rewrite Hwl in Hwl0. injection Hwl0 as <-. reflexivity. }
  destruct (address wl) as [|c a] eqn:Ha; [congruence|].
  rewrite (GET_valid isAddress req _ c a Hget Hok). cbn [snd].
  rewrite Hafter.
  destruct (option_map snd _) as [wl'|] eqn:F; cbn [json_wallet].
  - apply findFirst_some in F as [Ha' (k' & Hk')].
    destruct (decide (k = k')) as [<-|Hneq].
    + rewrite lookup_insert_eq in Hk'. now injection Hk' as <-.
    + rewrite lookup_insert_ne in Hk' by assumption.
      exfalso. apply Hneq. symmetry. now apply (Huniq k' wl').
  - exfalso.
    apply (findFirst_none _ _ F k (set_isDeployed true wl)).
    + apply lookup_insert_eq.
    + exact Ha.
Qed.

Lemma GET_after_POST_witness :
  snd (GET (fun _ => true)
         {| searchParams := [("walletAddress", "0x5afe")] |}
         (fst (POST (Some (persistBody Sample.t_BA (Some "0x7a01")))
                 (initial Sample.d_AB))))
  = Ok (JsonWallet (set_isDeployed true Sample.wallet_AB)).
Proof.
  apply (GET_after_POST (fun _ => true)
           {| searchParams := [("walletAddress", "0x5afe")] |}
           (persistBody Sample.t_BA (Some "0x7a01"))
           (initial Sample.d_AB) 1%Z Sample.wallet_AB);
    try reflexivity.
  - discriminate.
  - intros k' wl' Hk' _.
    destruct (decide (k' = 1%Z)) as [->|Hne]; [reflexivity|].
    cbn in Hk'. rewrite lookup_singleton_ne in Hk' by congruence. discriminate.
Defined.

(** ** The rendered action and letter case *)

(** X11: a pending signer stored with an upper-case letter cannot be
    offered the sign action: for a proposal without recorded hash on which
    that signer is pending, whatever spelling of the address is connected
    gets "No Action Reqd", unless the lower-case spelling is itself listed
    as pending. *)
Theorem mixed_case_pending_signer_gets_no_action
  (t : TransactionWithSignatures) (s address0 : string) :
  Str.truthy (txHash t) = false ->
  In s (pendingSigners t) ->
  Str.toLowerCase address0 = Str.toLowerCase s ->
  ~ In (Str.toLowerCase s) (pendingSigners t) ->
  renderAction address0 t = NoActionReqd.
Proof.
  intros Hh Hs Hlow Hnot. unfold renderAction. rewrite Hh.
  destruct (pendingSigners t) as [|p l] eqn:E; [destruct Hs|].
  cbn [length Nat.eqb]. unfold Str.includes.
  destruct (existsb _ (p :: l)) eqn:X; [|reflexivity].
  exfalso. apply Hnot.
  apply existsb_exists in X as (x & Hx & Heq).
  apply String.eqb_eq in Heq. now rewrite <- Hlow, Heq.
Qed.

Lemma mixed_case_pending_signer_gets_no_action_witness :
  renderAction "0xAB12" (Sample.proposal Sample.wallet_mixed [] None)
  = NoActionReqd
  /\ renderAction "0xab12" (Sample.proposal Sample.wallet_mixed [] None)
     = NoActionReqd.
Proof.
  split.
  - apply (mixed_case_pending_signer_gets_no_action _ "0xAB12"%string);
      [reflexivity | now left | reflexivity |].
    simpl. intuition discriminate.
  - apply (mixed_case_pending_signer_gets_no_action _ "0xAB12"%string);
      [reflexivity | now left | reflexivity |].
    simpl. intuition discriminate.
Defined.

(** ** signTransaction *)

Section Signing.

Implicit Types (env : ComponentEnv) (t : TransactionWithSignatures) (u : Ui).

Lemma signTransaction_eq env (address0 : string) t u :
  fst (signTransaction env address0 t u) =
  match walletClient env with
  | None => u
  | Some signMessage =>
      match getUserOpHash env (userOp t) with
      | inl f =>
          ui_failed u [UiGetUserOpHash (userOp t)] (Rejected HashUtility f)
      | inr h =>
          match signMessage h with
          | inl f =>
              ui_failed u [UiGetUserOpHash (userOp t); UiSignMessage h]
                        (Rejected WalletExtension f)
          | inr sg =>
              match create_signature env (signBody address0 t sg) with
              | inl f =>
                  ui_failed u
                    [UiGetUserOpHash (userOp t); UiSignMessage h;
                     UiPostCreateSignature (signBody address0 t sg)]
                    (Rejected Network f)
              | inr err =>
                  if js_truthy err
                  then
                    ui_failed u
                      [UiGetUserOpHash (userOp t); UiSignMessage h;
                       UiPostCreateSignature (signBody address0 t sg)]
                      (NewError (js_toString err))
                  else
                    {| walletTxns := walletTxns u; loading := true;
                       trace := trace u ++
                                [UiGetUserOpHash (userOp t); UiSignMessage h;
                                 UiPostCreateSignature (signBody address0 t sg);
                                 UiAlert "Transaction signed successfully";
                                 UiReload] |}
              end
          end
      end
  end.
Proof.
  unfold signTransaction. destruct (walletClient env) as [signMessage|];
    [|reflexivity].
  unfold ui_try, ui_bind, await, setLoading, ui_emit, ui_ret, ui_throw,
    ui_failed, ui_caught, signBody.
  cbn.
  destruct (getUserOpHash env (userOp t)) as [f|h]; cbn.
  { destruct (fault_isError f); cbn; rewrite <- ?app_assoc; reflexivity. }
  destruct (signMessage h) as [f|sg]; cbn.
  { destruct (fault_isError f); cbn; rewrite <- ?app_assoc; reflexivity. }
  destruct (create_signature env _) as [f|err]; cbn.
  { destruct (fault_isError f); cbn; rewrite <- ?app_assoc; reflexivity. }
  destruct (js_truthy err); cbn; rewrite <- ?app_assoc; reflexivity.
Qed.

Lemma ui_caught_posted (e : Caught) :
  flat_map (fun ev => match ev with UiPostCreateSignature b => [b] | _ => [] end)
    (ui_caught e) = [].
Proof. unfold ui_caught. now destruct (caught_isError e). Qed.

Lemma ui_caught_errors (e : Caught) :
  flat_map (fun ev => match ev with UiConsoleError x => [x] | _ => [] end)
    (ui_caught e) = [e].
Proof. unfold ui_caught. now destruct (caught_isError e). Qed.

Lemma ui_caught_alerts (e : Caught) :
  flat_map (fun ev => match ev with UiAlert m => [m] | _ => [] end)
    (ui_caught e) = if caught_isError e then [caught_message e] else [].
Proof. unfold ui_caught. now destruct (caught_isError e). Qed.

Lemma ui_caught_not_reload (e : Caught) : ~ In UiReload (ui_caught e).
Proof.
  unfold ui_caught. destruct (caught_isError e); simpl; intuition discriminate.
Qed.

End Signing.

Section SigningRuns.

Implicit Types (env : ComponentEnv) (t : TransactionWithSignatures).

Ltac ui_observe :=
  unfold ui_posted, ui_errors, ui_alerts, ui_reloaded, ui_failed, ui_initial;
  cbn [trace loading walletTxns app flat_map];
  rewrite ?flat_map_app, ?ui_caught_posted, ?ui_caught_errors,
    ?ui_caught_alerts;
  cbn [flat_map app].

Ltac no_reload :=
  exfalso;
  match goal with
  | H : In UiReload _ |- _ =>
      unfold ui_caught in H;
      cbn [In caught_isError caught_message] in H;
      repeat match type of H with
             | context [if ?c then _ else _] => destruct c
             end;
      cbn [In] in H; intuition discriminate
  end.

Lemma sign_run_cases env (address0 : string) t l (ld : bool) :
  let u' := fst (signTransaction env address0 t (ui_initial l ld)) in
  walletTxns u' = l
  /\ (walletClient env = None -> u' = ui_initial l ld)
  /\ (ui_reloaded u' ->
      loading u' = true /\ ui_errors u' = []
      /\ ui_alerts u' = ["Transaction signed successfully"%string])
  /\ (walletClient env <> None -> ~ ui_reloaded u' ->
      loading u' = false
      /\ exists e, ui_errors u' = [e]
                   /\ ui_alerts u'
                      = if caught_isError e then [caught_message e] else [])
  /\ (ui_posted u' = []
      \/ exists signMessage h sg,
          walletClient env = Some signMessage
          /\ getUserOpHash env (userOp t) = inr h
          /\ signMessage h = inr sg
          /\ In (UiSignMessage h) (trace u')
          /\ ui_posted u' = [signBody address0 t sg]).
Proof.
  cbv zeta. rewrite signTransaction_eq.
  destruct (walletClient env) as [signMessage|] eqn:Hc.
  2:{ unfold ui_reloaded, ui_posted, ui_initial. cbn.
      repeat split; intros; auto; try contradiction; congruence. }
  destruct (getUserOpHash env (userOp t)) as [f|h] eqn:Hh.
  { ui_observe. repeat split; intros; eauto; try congruence; no_reload. }
  destruct (signMessage h) as [f|sg] eqn:Hs.
  { ui_observe. repeat split; intros; eauto; try congruence; no_reload. }
  destruct (create_signature env (signBody address0 t sg)) as [f|err] eqn:Hp.
  { ui_observe. repeat split; intros; eauto; try congruence; try no_reload.
    right. exists signMessage, h, sg. cbn [In]. auto 10. }
  destruct (js_truthy err) eqn:Herr.
  { ui_observe. repeat split; intros; eauto; try congruence; try no_reload.
    right. exists signMessage, h, sg. cbn [In]. auto 10. }
  ui_observe. repeat split; intros; eauto; try congruence.
  - exfalso. match goal with H : ~ _ |- _ => apply H end. cbn [In]. auto 10.
  - exfalso. match goal with H : ~ _ |- _ => apply H end. cbn [In]. auto 10.
  - right. exists signMessage, h, sg. cbn [In]. auto 10.
Qed.

Lemma renderAction_sign_inv (address0 : string) t :
  renderAction address0 t = SignTxn ->
  In (Str.toLowerCase address0) (pendingSigners t).
Proof.
  unfold renderAction. destruct (Str.truthy (txHash t)); [discriminate|].
  destruct (pendingSigners t) as [|p l] eqn:E; [discriminate|].
  cbn [length Nat.eqb]. unfold Str.includes.
  destruct (existsb _ (p :: l)) eqn:X; [|discriminate]. intros _.
  apply existsb_exists in X as (x & Hx & Heq).
  apply String.eqb_eq in Heq. now subst x.
Qed.

End SigningRuns.

(** X12: [signTransaction] posts at most one signature request, and only
    after the wallet client signed: the request carries the signature the
    wallet returned for the hash [getUserOpHash] gave for this proposal's
    user operation, the connected address as it is, and this proposal's
    id.  When there is no wallet client, when the hash cannot be computed or
    when the wallet rejects, nothing is posted. *)
Theorem sign_posts_what_the_wallet_signed
  (env : ComponentEnv) (address0 : string) (t : TransactionWithSignatures)
  (l : list TransactionWithSignatures) (ld : bool) (b : CreateSignatureBody) :
  In b (ui_posted (fst (signTransaction env address0 t (ui_initial l ld)))) ->
  exists signMessage h sg,
    walletClient env = Some signMessage
    /\ getUserOpHash env (userOp t) = inr h
    /\ signMessage h = inr sg
    /\ In (UiSignMessage h)
          (trace (fst (signTransaction env address0 t (ui_initial l ld))))
    /\ b = {| cs_signerAddress := address0; cs_signature := sg;
              cs_transactionId := tx_id t |}
    /\ ui_posted (fst (signTransaction env address0 t (ui_initial l ld))) = [b].
Proof.
  intros Hin.
  destruct (sign_run_cases env address0 t l ld)
    as (_ & _ & _ & _ & [Hnil | (sm & h & sg & Hc & Hh & Hs & Ht & Hp)]).
  - rewrite Hnil in Hin. destruct Hin.
  - rewrite Hp in Hin. destruct Hin as [<-|[]].
    exists sm, h, sg. auto 10.
Qed.

Lemma sign_posts_what_the_wallet_signed_witness :
  ui_posted (fst (signTransaction SampleUi.env_signing "0xAB12"
                    SampleUi.t_pending_lower (ui_initial [] false)))
  = [{| cs_signerAddress := "0xAB12"; cs_signature := "0x510xha5h";
        cs_transactionId := 9%Z |}].
Proof.
  destruct (sign_posts_what_the_wallet_signed SampleUi.env_signing "0xAB12"
              SampleUi.t_pending_lower [] false
              {| cs_signerAddress := "0xAB12"; cs_signature := "0x510xha5h";
                 cs_transactionId := 9%Z |})
    as (_ & _ & _ & _ & _ & _ & _ & _ & H).
  - vm_compute. now left.
  - exact H.
Defined.

(** X13: how a run of [signTransaction] ends.  The list of proposals is
    never touched.  Without a wallet client nothing at all happens.  A run
    that reaches the reload has shown the success alert only, logged
    nothing and left the loading flag set; any other run with a wallet
    client resets the loading flag, logs exactly one caught value and shows
    its message only when it is an [Error] instance. *)
Theorem sign_run_endings
  (env : ComponentEnv) (address0 : string) (t : TransactionWithSignatures)
  (l : list TransactionWithSignatures) (ld : bool) :
  walletTxns (fst (signTransaction env address0 t (ui_initial l ld))) = l
  /\ (walletClient env = None ->
      fst (signTransaction env address0 t (ui_initial l ld)) = ui_initial l ld)
  /\ (ui_reloaded (fst (signTransaction env address0 t (ui_initial l ld))) ->
      loading (fst (signTransaction env address0 t (ui_initial l ld))) = true
      /\ ui_errors (fst (signTransaction env address0 t (ui_initial l ld))) = []
      /\ ui_alerts (fst (signTransaction env address0 t (ui_initial l ld)))
         = ["Transaction signed successfully"%string])
  /\ (walletClient env <> None ->
      ~ ui_reloaded (fst (signTransaction env address0 t (ui_initial l ld))) ->
      loading (fst (signTransaction env address0 t (ui_initial l ld))) = false
      /\ exists e,
          ui_errors (fst (signTransaction env address0 t (ui_initial l ld))) = [e]
          /\ ui_alerts (fst (signTransaction env address0 t (ui_initial l ld)))
             = if caught_isError e then [caught_message e] else []).
Proof.
  destruct (sign_run_cases env address0 t l ld) as (H1 & H2 & H3 & H4 & _).
  auto.
Qed.

Lemma sign_run_endings_witness :
  loading (fst (signTransaction SampleUi.env_user_rejects "0xab12"
                  SampleUi.t_pending_lower (ui_initial [] false))) = false
  /\ ui_alerts (fst (signTransaction SampleUi.env_user_rejects "0xab12"
                       SampleUi.t_pending_lower (ui_initial [] false)))
     = ["User rejected the request."%string].
Proof.
  destruct (sign_run_endings SampleUi.env_user_rejects "0xab12"
              SampleUi.t_pending_lower [] false) as (_ & _ & _ & H).
  destruct H as (Hl & e & He & Ha).
  - discriminate.
  - vm_compute. intuition discriminate.
  - split; [exact Hl | reflexivity].
Defined.

(** X14: eligibility and posting use different spellings.  When the sign
    action is offered to the connected address, it is the lower-cased
    address that is pending, while the signature request names the
    connected address as it is; so for a connected address with an
    upper-case letter the posted signer address is not the pending entry
    that made the signer eligible. *)
Theorem sign_posts_connected_spelling
  (env : ComponentEnv) (address0 : string) (t : TransactionWithSignatures)
  (l : list TransactionWithSignatures) (ld : bool) (b : CreateSignatureBody) :
  renderAction address0 t = SignTxn ->
  In b (ui_posted (fst (signTransaction env address0 t (ui_initial l ld)))) ->
  In (Str.toLowerCase address0) (pendingSigners t)
  /\ cs_signerAddress b = address0
  /\ cs_transactionId b = tx_id t
  /\ (address0 <> Str.toLowerCase address0 ->
      cs_signerAddress b <> Str.toLowerCase address0).
Proof.
  intros Hr Hin.
  destruct (sign_run_cases env address0 t l ld)
    as (_ & _ & _ & _ & [Hnil | (sm & h & sg & _ & _ & _ & _ & Hp)]).
  - rewrite Hnil in Hin. destruct Hin.
  - rewrite Hp in Hin. destruct Hin as [<-|[]].
    split; [now apply renderAction_sign_inv|]. cbn. auto.
Qed.

Lemma sign_posts_connected_spelling_witness :
  In "0xab12"%string (pendingSigners SampleUi.t_pending_lower)
  /\ cs_signerAddress
       {| cs_signerAddress := "0xAB12"; cs_signature := "0x510xha5h";
          cs_transactionId := 9%Z |}
     <> "0xab12"%string.
Proof.
  destruct (sign_posts_connected_spelling SampleUi.env_signing "0xAB12"
              SampleUi.t_pending_lower [] false
              {| cs_signerAddress := "0xAB12"; cs_signature := "0x510xha5h";
                 cs_transactionId := 9%Z |})
    as (Hp & _ & _ & Hne).
  - reflexivity.
  - vm_compute. now left.
  - split; [exact Hp|]. apply Hne. discriminate.
Defined.

(** ** fetchTransactions *)

(** X15: a refresh that fails keeps the list of proposals that was shown
    before, and a refresh never touches the loading flag.  When the route
    answers without a truthy [error] the list is replaced by the answer's
    [transactions] and nothing is alerted or logged; when it answers with a
    truthy [error], [String(error)] is alerted (for an error object that is
    the text "[object Object]") and the thrown value is logged; when the
    request itself is rejected, the rejection is logged and alerted only if
    it is an [Error] instance. *)
Theorem refresh_keeps_list_on_failure
  (env : ComponentEnv) (walletAddress0 : string)
  (l : list TransactionWithSignatures) (ld : bool) :
  loading (fst (fetchTransactions env walletAddress0 (ui_initial l ld))) = ld
  /\ (forall data,
         fetch_transactions env walletAddress0 = inr data ->
         js_truthy (data_error data) = false ->
         fst (fetchTransactions env walletAddress0 (ui_initial l ld))
         = {| walletTxns := data_transactions data; loading := ld;
              trace := [UiGetTransactions
                          (String.append "/api/fetch-transactions?walletAddress="
                                         walletAddress0)] |})
  /\ (forall data,
         fetch_transactions env walletAddress0 = inr data ->
         js_truthy (data_error data) = true ->
         walletTxns (fst (fetchTransactions env walletAddress0 (ui_initial l ld)))
         = l
         /\ ui_alerts (fst (fetchTransactions env walletAddress0 (ui_initial l ld)))
            = [js_toString (data_error data)]
         /\ ui_errors (fst (fetchTransactions env walletAddress0 (ui_initial l ld)))
            = [NewError (js_toString (data_error data))]
         /\ (data_error data = JObject ->
             ui_alerts (fst (fetchTransactions env walletAddress0 (ui_initial l ld)))
             = ["[object Object]"%string]))
  /\ (forall f,
         fetch_transactions env walletAddress0 = inl f ->
         walletTxns (fst (fetchTransactions env walletAddress0 (ui_initial l ld)))
         = l
         /\ ui_errors (fst (fetchTransactions env walletAddress0 (ui_initial l ld)))
            = [Rejected Network f]
         /\ ui_alerts (fst (fetchTransactions env walletAddress0 (ui_initial l ld)))
            = if fault_isError f then [fault_message f] else []).
Proof.
  unfold fetchTransactions, ui_try, ui_bind, await, setWalletTxns, ui_emit,
    ui_ret, ui_throw, ui_initial, ui_alerts, ui_errors.
  cbn [walletTxns loading trace fst app].
  destruct (fetch_transactions env walletAddress0) as [f|data]; cbn.
  - split; [now destruct (fault_isError f)|].
    split; [discriminate|]. split; [discriminate|].
    intros f0 [= <-]. destruct (fault_isError f); repeat split.
  - destruct (js_truthy (data_error data)) eqn:E; cbn.
    + split; [reflexivity|]. split; [intros d [= <-]; congruence|].
      split; [|discriminate].
      intros d [= <-] _. repeat split. now intros ->.
    + split; [reflexivity|]. split; [now intros d [= <-] _|].
      split; [|discriminate]. intros d [= <-]. congruence.
Qed.

Lemma refresh_keeps_list_on_failure_witness :
  walletTxns (fst (fetchTransactions SampleUi.env_user_rejects "0x5afe"
                     (ui_initial [Sample.t_B] false)))
  = [Sample.t_B]
  /\ ui_alerts (fst (fetchTransactions SampleUi.env_user_rejects "0x5afe"
                       (ui_initial [Sample.t_B] false)))
     = ["[object Object]"%string]
  /\ walletTxns (fst (fetchTransactions SampleUi.env_signing "0x5afe"
                        (ui_initial [] false)))
     = [Sample.t_B].
Proof.
  split; [|split].
  - destruct (refresh_keeps_list_on_failure SampleUi.env_user_rejects "0x5afe"
                [Sample.t_B] false) as (_ & _ & H & _).
    destruct (H {| data_error := JObject; data_transactions := [] |})
      as (Hl & _); [reflexivity | reflexivity | exact Hl].
  - destruct (refresh_keeps_list_on_failure SampleUi.env_user_rejects "0x5afe"
                [Sample.t_B] false) as (_ & _ & H & _).
    destruct (H {| data_error := JObject; data_transactions := [] |})
      as (_ & _ & _ & Ho); [reflexivity | reflexivity | now apply Ho].
  - destruct (refresh_keeps_list_on_failure SampleUi.env_signing "0x5afe"
                [] false) as (_ & H & _).
    rewrite (H {| data_error := JAbsent; data_transactions := [Sample.t_B] |});
      reflexivity.
Defined.

(** ** Composition *)

(** X16: ordering distributes over the signer list: the ordered signatures
    for a list of signers followed by further signers are the ordered
    signatures for the first list followed by those for the further
    signers, so what is assembled for a prefix of the signer list is a
    prefix of what is assembled for the whole list. *)
Theorem orderSignatures_app (ss1 ss2 : list string) (sigs : list Signature) :
  orderSignatures (ss1 ++ ss2) sigs
  = orderSignatures ss1 sigs ++ orderSignatures ss2 sigs.
Proof. rewrite !orderSignatures_flat_map. apply flat_map_app. Qed.

Section Resubmission.

Lemma POST_db_of_db (body : option UpdateBody) (w1 w2 : World) :
  db w1 = db w2 ->
  db (fst (POST body w1)) = db (fst (POST body w2)).
Proof.
  intros Heq.
  destruct (POST_cases body w1) as (w1' & j1 & Hp1 & Hc1).
  destruct (POST_cases body w2) as (w2' & j2 & Hp2 & Hc2).
  rewrite Hp1, Hp2. cbn [fst]. clear Hp1 Hp2.
  destruct Hc1 as [c1 f1 Hb | c1 f1 b1 k1 wl1 Hb Hk Hwl Hr
                  | b1 k1 wl1 i1 r1 Hb Hk Hwl Hi Hr Hv];
    destruct Hc2 as [c2 f2 Hb' | c2 f2 b2 k2 wl2 Hb' Hk' Hwl' Hr'
                    | b2 k2 wl2 i2 r2 Hb' Hk' Hwl' Hi' Hr' Hv'];
    unfold logged, with_wallets, update_refused in *;
    cbn [db log wallets transactions] in *;
    subst; try (injection Hb' as <-);
    rewrite ?Heq in *;
    repeat match goal with
           | H : ?x = Some _, H' : ?x = Some _ |- _ =>
               rewrite H in H'; injection H' as <-
           | H : ?x = Some _, H' : ?x = None |- _ =>
               rewrite H in H'; discriminate H'
           | H : match ?x with Some _ => _ | None => _ end,
             H' : ?x = Some _ |- _ => rewrite H' in H
           end;
    try reflexivity; try congruence;
    try (destruct Hr as [Hr|Hr]; congruence);
    try (destruct Hr' as [Hr'|Hr']; congruence).
Qed.

Lemma run_db_of_POST (env : Env) (t : TransactionWithSignatures) (d : Db) :
  db (run_sendTransaction env t d) = d
  \/ exists h,
      executionSubmitter env (requestOf t) = inr h
      /\ db (run_sendTransaction env t d)
         = db (fst (POST (Some (persistBody t h)) (initial d))).
Proof.
  rewrite run_sendTransaction_eq.
  destruct (clientInit env) as [f|] eqn:Hinit; [now left|].
  destruct (quorum_met t) eqn:Hq; cbn [negb]; [|now left].
  destruct (executionSubmitter env (requestOf t)) as [f|h] eqn:Hs; [now left|].
  destruct (delivery env (persistBody t h)) as [|f|f]; [| now left |];
    right; exists h; (split; [reflexivity|]);
    destruct (POST_cases (Some (persistBody t h))
                {| db := d; log := [ClientInit; SendUserOperation (requestOf t)] |})
      as (w' & j & Hp & _);
    rewrite <- (POST_db_of_db (Some (persistBody t h))
                  {| db := d; log := [ClientInit; SendUserOperation (requestOf t)] |}
                  (initial d) eq_refl);
    now rewrite Hp.
Qed.

End Resubmission.

(** X17: submitting the same proposal again with the same collaborators
    changes nothing further: the database after a second call of
    [sendTransaction], started from the database the first call left, is
    the database the first call left. *)
Theorem resubmission_leaves_database
  (env : Env) (t : TransactionWithSignatures) (d : Db) :
  db (run_sendTransaction env t (db (run_sendTransaction env t d)))
  = db (run_sendTransaction env t d).
Proof.
  destruct (run_db_of_POST env t d) as [Hd | (h & Hs & Hd)].
  - now rewrite !Hd.
  - rewrite Hd.
    destruct (run_db_of_POST env t
                (db (fst (POST (Some (persistBody t h)) (initial d)))))
      as [Hd' | (h' & Hs' & Hd')]; [exact Hd'|].
    rewrite Hd'. rewrite Hs in Hs'. injection Hs' as <-.
    destruct (POST_twice (Some (persistBody t h)) (initial d)) as [Hi _].
    etransitivity; [|exact Hi]. apply POST_db_of_db. reflexivity.
Qed.
